(** * Bedrock workshop notebooks: the client-side glue code

    Two notebooks are covered:
    - [02_Knowledge_Bases_and_RAG/3_customized-rag-with-retrieve-api.ipynb]
      (module [Rag]): the [retrieve] helper, the prompt cell and the
      Converse cell;
    - the fine-tuning data preparation notebook (module [FineTune]):
      [dp_transform], the filter / shuffle / truncate routine.

    Module [Py] holds the part of the Python runtime both notebooks rely
    on: JSON-like values, subscripting, [repr]/[str], [str.format] and the
    list operations behind [random.shuffle] and slicing. *)

From Stdlib Require Import ZArith String Ascii Floats.PrimFloat.
From stdpp Require Import base option list strings gmap pretty.

#[local] Set Warnings "-register-all,-inexact-float".
#[local] Open Scope Z_scope.

(* ===================================================================== *)
(** * Python values and the runtime operations the notebooks use *)
(* ===================================================================== *)

Module Py.

(** Python objects as far as the notebooks handle them: the JSON-like
    values that boto3 takes and returns.  A [str] is a sequence of code
    points; the development covers code points below 256, one per [ascii].
    A [dict] keeps its insertion order, so it is an association list; all
    keys in the notebooks are string literals, and a dict holds each key
    once. *)
Inductive pyval :=
| PNone
| PBool (b : bool)
| PInt (z : Z)
| PFloat (f : float)
| PStr (s : string)
| PList (l : list pyval)
| PDict (d : list (string * pyval)).

(** The exceptions that can surface: the interpreter's own, and whatever
    the SDK raises ([botocore.exceptions.ClientError] with its error code,
    or another [BotoCoreError] subclass). *)
Inductive exn :=
| KeyError (key : pyval)
| IndexError
| AttributeError
| TypeError
| ValueError
| NameError (name : string)
| ClientError (code message : string)
| BotoCoreError (cls : string).

(** The result of evaluating an expression.  [Stuck] marks behaviour of
    the runtime that this development does not model (the text of a float,
    the replacement-field syntax beyond plain keyword names); it is never
    produced on the paths the theorems below follow. *)
Inductive outcome (A : Type) :=
| Ok (a : A)
| Raise (e : exn)
| Stuck.
Arguments Ok {A} a.
Arguments Raise {A} e.
Arguments Stuck {A}.

#[export] Instance outcome_ret : MRet outcome := λ A a, Ok a.
#[export] Instance outcome_bind : MBind outcome := λ A B f m,
  match m with
  | Ok a => f a
  | Raise e => Raise e
  | Stuck => Stuck
  end.
#[export] Instance outcome_fmap : FMap outcome := λ A B f m,
  match m with
  | Ok a => Ok (f a)
  | Raise e => Raise e
  | Stuck => Stuck
  end.

Definition of_option {A} (o : option A) : outcome A :=
  match o with
  | Some a => Ok a
  | None => Stuck
  end.

(** ** Subscripting *)

(** First binding of [key] in a dict. *)
Fixpoint dict_get (d : list (string * pyval)) (key : string) : option pyval :=
  match d with
  | [] => None
  | (k, v) :: d' => if String.eqb k key then Some v else dict_get d' key
  end.

(** [seq[i]] for a Python integer [i]: negative indices count from the
    end. *)
Definition seq_index {A} (l : list A) (i : Z) : option A :=
  if i <? 0
  then (if i + Z.of_nat (length l) <? 0 then None
        else l !! Z.to_nat (i + Z.of_nat (length l)))
  else l !! Z.to_nat i.

Definition chars (s : string) : list pyval :=
  (λ c, PStr (String c EmptyString)) <$> list_ascii_of_string s.

(** [v[key]] with a string literal as the subscript. *)
Definition getitem_key (v : pyval) (key : string) : outcome pyval :=
  match v with
  | PDict d =>
      match dict_get d key with
      | Some x => Ok x
      | None => Raise (KeyError (PStr key))
      end
  | _ => Raise TypeError
  end.

(** [v[i]] with an integer literal as the subscript.  The dicts here have
    string keys only, so an integer is never among them. *)
Definition getitem_index (v : pyval) (i : Z) : outcome pyval :=
  match v with
  | PList l =>
      match seq_index l i with
      | Some x => Ok x
      | None => Raise IndexError
      end
  | PStr s =>
      match seq_index (chars s) i with
      | Some x => Ok x
      | None => Raise IndexError
      end
  | PDict _ => Raise (KeyError (PInt i))
  | _ => Raise TypeError
  end.

(** A chain of subscripts [v[a][b]...], read left to right. *)
Inductive subscript :=
| Key (k : string)
| Idx (i : Z).

Definition getitem (v : pyval) (s : subscript) : outcome pyval :=
  match s with
  | Key k => getitem_key v k
  | Idx i => getitem_index v i
  end.

Fixpoint getpath (v : pyval) (path : list subscript) : outcome pyval :=
  match path with
  | [] => Ok v
  | s :: path' => x ← getitem v s; getpath x path'
  end.

(** The elements a [for] clause draws from a value: the items of a list,
    the keys of a dict, the characters of a string. *)
Definition py_iter (v : pyval) : outcome (list pyval) :=
  match v with
  | PList l => Ok l
  | PDict d => Ok ((λ kv, PStr kv.1) <$> d)
  | PStr s => Ok (chars s)
  | _ => Raise TypeError
  end.

(** [for x in xs: acc = body(acc, x)], stopping at the first exception. *)
Fixpoint for_each {A B} (body : B → A → outcome B) (xs : list A) (acc : B)
  : outcome B :=
  match xs with
  | [] => Ok acc
  | x :: xs' => acc' ← body acc x; for_each body xs' acc'
  end.

(** ** [len] and [+] *)

Definition py_len (v : pyval) : outcome Z :=
  match v with
  | PStr s => Ok (Z.of_nat (String.length s))
  | PList l => Ok (Z.of_nat (length l))
  | PDict d => Ok (Z.of_nat (length d))
  | _ => Raise TypeError
  end.

Definition as_int (v : pyval) : option Z :=
  match v with
  | PInt z => Some z
  | PBool b => Some (if b then 1 else 0)
  | _ => None
  end.

Definition is_float (v : pyval) : bool :=
  match v with
  | PFloat _ => true
  | _ => false
  end.

(** [a + b]: concatenation of two strings or two lists, integer addition
    (a [bool] is an [int]); float arithmetic is not modelled. *)
Definition py_add (a b : pyval) : outcome pyval :=
  match a, b with
  | PStr x, PStr y => Ok (PStr (x +:+ y))
  | PList x, PList y => Ok (PList (x ++ y))
  | _, _ =>
      match as_int a, as_int b with
      | Some x, Some y => Ok (PInt (x + y))
      | _, _ =>
          if (is_float a && (is_float b || bool_decide (is_Some (as_int b))))
             || (is_float b && bool_decide (is_Some (as_int a)))
          then Stuck
          else Raise TypeError
      end
  end.

(** ** [repr] and [str] *)

Definition dquote : ascii := "034"%char.
Definition squote : ascii := "'"%char.
Definition backslash : ascii := "\"%char.

Definition has_char (c : ascii) (s : string) : bool :=
  existsb (Ascii.eqb c) (list_ascii_of_string s).

(** [repr] of a string prefers single quotes and switches to double
    quotes when the text has a single quote and no double quote. *)
Definition repr_quote (s : string) : ascii :=
  if has_char squote s && negb (has_char dquote s) then dquote else squote.

Definition hex_digit (n : N) : ascii :=
  match String.get (N.to_nat n) "0123456789abcdef" with
  | Some c => c
  | None => "0"%char
  end.

Definition hex_escape (c : ascii) : string :=
  let n := N_of_ascii c in
  String backslash (String "x" (String (hex_digit (n / 16))
    (String (hex_digit (n mod 16)) EmptyString))).

(** [str.isprintable] on one code point below 256: the C0 and C1
    controls, DEL, the no-break space and the soft hyphen are not. *)
Definition printable (c : ascii) : bool :=
  let n := N_of_ascii c in
  ((32 <=? n) && (n <? 127) || (161 <=? n) && negb (n =? 173))%N.

Definition repr_char (quote c : ascii) : string :=
  if Ascii.eqb c quote || Ascii.eqb c backslash
  then String backslash (String c EmptyString)
  else if Ascii.eqb c "009" then String backslash "t"
  else if Ascii.eqb c "010" then String backslash "n"
  else if Ascii.eqb c "013" then String backslash "r"
  else if printable c then String c EmptyString
  else hex_escape c.

Definition repr_str (s : string) : string :=
  let q := repr_quote s in
  String q (String.concat "" (repr_char q <$> list_ascii_of_string s)
            +:+ String q EmptyString).

(** [repr(v)]; [None] where the text is not modelled (floats). *)
Fixpoint py_repr (v : pyval) : option string :=
  match v with
  | PNone => Some "None"
  | PBool b => Some (if b then "True" else "False")
  | PInt z => Some (pretty z)
  | PFloat _ => None
  | PStr s => Some (repr_str s)
  | PList l =>
      items ← mapM py_repr l;
      Some ("[" +:+ String.concat ", " items +:+ "]")
  | PDict d =>
      items ← mapM (λ kv, r ← py_repr kv.2; Some (repr_str kv.1 +:+ ": " +:+ r)) d;
      Some ("{" +:+ String.concat ", " items +:+ "}")
  end.

(** [str(v)], which is also [format(v, '')]: a string is itself, every
    other value is its [repr]. *)
Definition py_str (v : pyval) : option string :=
  match v with
  | PStr s => Some s
  | _ => py_repr v
  end.

(** ** [str.format] with keyword arguments *)

Inductive fmt_mode :=
| InText
| InField (name : string).

Definition is_digit (c : ascii) : bool :=
  let n := N_of_ascii c in ((48 <=? n) && (n <=? 57))%N.

(** A replacement field naming a keyword argument.  An empty or numeric
    name refers to the positional arguments; such fields are not
    modelled. *)
Definition get_field (kwargs : list (string * pyval)) (name : string)
  : outcome string :=
  if forallb is_digit (list_ascii_of_string name) then Stuck
  else match dict_get kwargs name with
       | Some v => of_option (py_str v)
       | None => Raise (KeyError (PStr name))
       end.

(** One left-to-right pass over the template, as the interpreter does it:
    doubled braces are literal braces, [{name}] is replaced by
    [format(kwargs[name], '')], and the substituted text is not scanned
    again.  A lone brace is a [ValueError].  Conversions ([!r]), format
    specs ([:...]), attribute and index lookups are not modelled. *)
Fixpoint format_scan (kwargs : list (string * pyval)) (mode : fmt_mode)
  (s : string) : outcome string :=
  match s with
  | EmptyString =>
      match mode with
      | InText => Ok EmptyString
      | InField _ => Raise ValueError
      end
  | String c rest =>
      match mode with
      | InText =>
          if Ascii.eqb c "{" then
            match rest with
            | EmptyString => Raise ValueError
            | String c' rest' =>
                if Ascii.eqb c' "{"
                then out ← format_scan kwargs InText rest'; Ok (String "{" out)
                else format_scan kwargs (InField EmptyString) rest
            end
          else if Ascii.eqb c "}" then
            match rest with
            | EmptyString => Raise ValueError
            | String c' rest' =>
                if Ascii.eqb c' "}"
                then out ← format_scan kwargs InText rest'; Ok (String "}" out)
                else Raise ValueError
            end
          else out ← format_scan kwargs InText rest; Ok (String c out)
      | InField name =>
          if Ascii.eqb c "}" then
            v ← get_field kwargs name;
            out ← format_scan kwargs InText rest;
            Ok (v +:+ out)
          else if Ascii.eqb c "{" then Raise ValueError
          else if has_char c "[.!:" then Stuck
          else format_scan kwargs (InField (name +:+ String c EmptyString)) rest
      end
  end.

Definition str_format (template : string) (kwargs : list (string * pyval))
  : outcome string :=
  format_scan kwargs InText template.

(** Template text without braces, and field names without any of the
    characters that start another part of a replacement field. *)
Definition literal (s : string) : bool :=
  negb (has_char "{" s) && negb (has_char "}" s).

Definition plain_name (s : string) : bool :=
  forallb (λ c, negb (has_char c "{}[.!:")) (list_ascii_of_string s).

(** ** List operations behind [random.shuffle] and slicing *)

(** [x[i], x[j] = x[j], x[i]]: both reads happen first, then [x[i]] is
    written, then [x[j]]. *)
Definition swap {A} (x : list A) (i j : nat) : outcome (list A) :=
  match x !! j, x !! i with
  | Some xj, Some xi => Ok (<[j := xi]> (<[i := xj]> x))
  | _, _ => Raise IndexError
  end.

(** [l[:n]]: a negative [n] counts from the end, and both ends are
    clipped to the list. *)
Definition slice_to {A} (l : list A) (n : Z) : list A :=
  if n <? 0 then take (Z.to_nat (Z.of_nat (length l) + n)) l
  else take (Z.to_nat n) l.

End Py.

(* ===================================================================== *)
(** * The Retrieve / Converse notebook *)
(* ===================================================================== *)

Module Rag.
Import Py.

(** One request handed to a boto3 client: the client's service, the
    operation and the keyword arguments, in the order they are written. *)
Record api_call := ApiCall {
  client : string;
  operation : string;
  kwargs : list (string * pyval)
}.

(** What a notebook cell can see and change: the kernel's global
    namespace, the requests sent so far, and the text printed so far.
    [service] is the managed service behind the SDK: given the requests it
    has already received and a new one, it answers with a response or the
    SDK raises. *)
Record world := World {
  globals : gmap string pyval;
  service : list api_call → api_call → exn + pyval;
  calls : list api_call;
  stdout : string
}.

(** A piece of notebook code: it runs in a world and ends with a value or
    an exception, in the world it has reached by then. *)
Definition Nb (A : Type) : Type := world → outcome A * world.

#[export] Instance Nb_ret : MRet Nb := λ A a w, (Ok a, w).
#[export] Instance Nb_bind : MBind Nb := λ A B f m w,
  match m w with
  | (Ok a, w') => f a w'
  | (Raise e, w') => (Raise e, w')
  | (Stuck, w') => (Stuck, w')
  end.

Definition lift {A} (o : outcome A) : Nb A := λ w, (o, w).

(** Reading and binding a global name. *)
Definition name (x : string) : Nb pyval := λ w,
  (match globals w !! x with
   | Some v => Ok v
   | None => Raise (NameError x)
   end, w).

Definition assign (x : string) (v : pyval) : Nb unit := λ w,
  (Ok (), World (<[x := v]> (globals w)) (service w) (calls w) (stdout w)).

(** A call of a client method: the request goes out once, and the
    response, or the exception, comes back as it is. *)
Definition sdk_call (c : api_call) : Nb pyval := λ w,
  (match service w (calls w) c with
   | inr response => Ok response
   | inl e => Raise e
   end,
   World (globals w) (service w) (calls w ++ [c]) (stdout w)).

Definition nl : string := String "010" EmptyString.

(** [print(a, b, ...)]: the [str] of each argument, separated by one
    space, and a newline. *)
Definition print (args : list pyval) : Nb unit := λ w,
  match mapM py_str args with
  | Some texts =>
      (Ok (), World (globals w) (service w) (calls w)
                    (stdout w +:+ String.concat " " texts +:+ nl))
  | None => (Stuck, w)
  end.

(** ** Setup cell (lines 97-103) *)

Definition bedrock_client : string := "bedrock-runtime".
Definition bedrock_agent_client : string := "bedrock-agent-runtime".
Definition model_id : string := "amazon.nova-micro-v1:0".

(** ** [retrieve] (lines 143-155) *)

(** [def retrieve(user_query, kb_id, num_of_results=5)]: an omitted third
    argument is [None] here and takes the default. *)
Definition retrieve (user_query kb_id : pyval) (num_of_results : option pyval)
  : Nb pyval :=
  let num_of_results := default (PInt 5) num_of_results in
  sdk_call (ApiCall bedrock_agent_client "retrieve"
    [ ("retrievalQuery", PDict [("text", user_query)]);
      ("knowledgeBaseId", kb_id);
      ("retrievalConfiguration", PDict
         [("vectorSearchConfiguration", PDict
             [("numberOfResults", num_of_results);
              ("overrideSearchType", PStr "HYBRID")])]) ]).

(** ** Query cell (lines 169-173) *)

Section QueryCell.
(** [json.dumps(_, indent=2, default=str)], from the standard library. *)
Variable json_dumps : pyval → outcome string.

(** The cell with the question the user typed into it; the notebook
    ships with "What is Amazon doing in the field of Generative AI?". *)
Definition cell_query (question : string) : Nb unit :=
  assign "user_query" (PStr question);;
  user_query ← name "user_query";
  bedrock_kb_id ← name "bedrock_kb_id";
  response ← retrieve user_query bedrock_kb_id (Some (PInt 3));
  assign "response" response;;
  response ← name "response";
  results ← lift (getitem_key response "retrievalResults");
  text ← lift (json_dumps results);
  print [PStr ("Retrieval Results:" +:+ nl); PStr text].
End QueryCell.

(** ** Prompt cell (lines 200-221) *)

Definition system_prompt : string :=
"You are a financial advisor AI system, and provides answers to questions
by using fact based and statistical information when possible. 
Use the following pieces of information in <context> tags to provide a concise answer to the questions.
Give an answer directly, without any XML tags.
If you don't know the answer, just say that you don't know, don't try to make up an answer.".

Definition user_prompt_template : string :=
"Here is some additional context:
<context>
{contexts}
</context>

Please provide an answer to this user query:
<query>
{user_query}
</query>

The response should be specific and use statistics or numbers when possible.".

(** [[rr['content']['text'] for rr in response['retrievalResults']]] *)
Definition contexts (response : pyval) : outcome (list pyval) :=
  results ← getitem_key response "retrievalResults";
  rrs ← py_iter results;
  for_each (λ acc rr,
              text ← getpath rr [Key "content"; Key "text"];
              Ok (acc ++ [text]))
           rrs [].

Definition cell_prompts : Nb unit :=
  assign "system_prompt" (PStr system_prompt);;
  assign "user_prompt_template" (PStr user_prompt_template);;
  response ← name "response";
  texts ← lift (contexts response);
  assign "contexts" (PList texts).

(** ** Converse cell (lines 230-260) *)

(** [template.format]: the attribute is looked up before the arguments
    are evaluated, and among the values here only a [str] has it. *)
Definition format_method (template : pyval) : outcome string :=
  match template with
  | PStr t => Ok t
  | _ => Raise AttributeError
  end.

Definition converse_request (system_prompt : pyval) (prompt : string) : pyval :=
  PDict
    [ ("system", PList [PDict [("text", system_prompt)]]);
      ("messages", PList
         [PDict [("role", PStr "user");
                 ("content", PList [PDict [("text", PStr prompt)]])]]);
      ("inferenceConfig", PDict
         [("temperature", PFloat 0.4);
          ("topP", PFloat 0.9);
          ("maxTokens", PInt 500)]) ].

Definition cell_generate : Nb unit :=
  system_prompt ← name "system_prompt";
  user_prompt_template ← name "user_prompt_template";
  template ← lift (format_method user_prompt_template);
  contexts ← name "contexts";
  user_query ← name "user_query";
  prompt ← lift (str_format template
                   [("contexts", contexts); ("user_query", user_query)]);
  assign "converse_request" (converse_request system_prompt prompt);;
  model_id ← name "model_id";
  request ← name "converse_request";
  system ← lift (getitem_key request "system");
  request ← name "converse_request";
  messages ← lift (getitem_key request "messages");
  request ← name "converse_request";
  inferenceConfig ← lift (getitem_key request "inferenceConfig");
  response ← sdk_call (ApiCall bedrock_client "converse"
    [ ("modelId", model_id);
      ("system", system);
      ("messages", messages);
      ("inferenceConfig", inferenceConfig) ]);
  assign "response" response;;
  response ← name "response";
  text ← lift (getpath response
                 [Key "output"; Key "message"; Key "content"; Idx 0; Key "text"]);
  print [PStr ("Final Answer:" +:+ nl); text].

(** The request the Converse cell sends when it finds these values under
    [model_id] and [system_prompt] and has formatted [prompt]. *)
Definition converse_call (m sp : pyval) (prompt : string) : api_call :=
  ApiCall bedrock_client "converse"
    [ ("modelId", m);
      ("system", PList [PDict [("text", sp)]]);
      ("messages", PList
         [PDict [("role", PStr "user");
                 ("content", PList [PDict [("text", PStr prompt)]])]]);
      ("inferenceConfig", PDict
         [("temperature", PFloat 0.4);
          ("topP", PFloat 0.9);
          ("maxTokens", PInt 500)]) ].

(** The two cells that turn a stored Retrieve response into an answer. *)
Definition rag_answer : Nb unit := cell_prompts;; cell_generate.

(** The requests a piece of code sends when run in [w]. *)
Definition issued {A} (m : Nb A) (w : world) : list api_call :=
  drop (length (calls w)) (calls (m w).2).

(** The search-type and result-count settings of a Retrieve request. *)
Definition search_type (c : api_call) : outcome pyval :=
  getpath (PDict (kwargs c))
    [Key "retrievalConfiguration"; Key "vectorSearchConfiguration";
     Key "overrideSearchType"].

Definition number_of_results (c : api_call) : outcome pyval :=
  getpath (PDict (kwargs c))
    [Key "retrievalConfiguration"; Key "vectorSearchConfiguration";
     Key "numberOfResults"].

(** Code [m] run in [w] sends request [c] and ends there with exception
    [e]: nothing is sent after [c], nothing is printed and [response]
    keeps the value it had. *)
Definition halts_with {A} (m : Nb A) (w : world) (c : api_call) (e : exn)
  : Prop :=
  (m w).1 = Raise e
  ∧ calls (m w).2 = calls w ++ [c]
  ∧ stdout (m w).2 = stdout w
  ∧ globals (m w).2 !! "response" = globals w !! "response".

(** ** Sample data *)

Definition sample_results : pyval :=
  PDict
    [ ("retrievalResults", PList
         [ PDict [ ("content", PDict [("text", PStr "Amazon AI chips");
                                      ("type", PStr "TEXT")]);
                   ("location", PDict [("type", PStr "S3")]);
                   ("score", PFloat 0.5) ];
           PDict [ ("content", PDict [("text", PStr "Bedrock and CodeWhisperer");
                                      ("type", PStr "TEXT")]);
                   ("location", PDict [("type", PStr "S3")]);
                   ("score", PFloat 0.25) ] ]) ].

Definition sample_answer : pyval :=
  PDict
    [ ("output", PDict
         [("message", PDict
             [ ("role", PStr "assistant");
               ("content", PList [PDict [("text", PStr "Chips and Bedrock.")]]) ])]);
      ("stopReason", PStr "end_turn") ].

Definition sample_service (history : list api_call) (c : api_call)
  : exn + pyval :=
  if String.eqb (operation c) "retrieve" then inr sample_results
  else inr sample_answer.

Definition throttled (history : list api_call) (c : api_call) : exn + pyval :=
  inl (ClientError "ThrottlingException" "Too many requests").

Definition sample_globals : gmap string pyval :=
  <["model_id" := PStr model_id]>
    (<["bedrock_kb_id" := PStr "KB12345678"]>
       (<["user_query" := PStr "What is Amazon doing in AI?"]>
          (<["response" := sample_results]> ∅))).

Definition sample_world : world :=
  World sample_globals sample_service [] "".

Definition other_world : world :=
  World (<["user_query" := PStr "How many employees?"]>
           (<["response" := PDict [("retrievalResults", PList [])]]>
              sample_globals))
        sample_service [] "".

Definition throttled_world : world :=
  World (globals (cell_prompts sample_world).2) throttled [] "".

End Rag.

(* ===================================================================== *)
(** * The fine-tuning data preparation notebook *)
(* ===================================================================== *)

Module FineTune.
Import Py.

(** ** The [random] module *)

(** What [dp_transform] needs from Python's [random]: a generator state,
    [random.seed(a)] to fix it, and [_randbelow(n)], which draws an
    integer in [range(n)] and moves the state on. *)
Class RandomGen (G : Type) := {
  seed : Z → G;
  randbelow : nat → G → nat * G;
  randbelow_lt n g : (0 < n)%nat → ((randbelow n g).1 < n)%nat
}.

(** A small linear congruential generator, to run the code on examples. *)
Definition lcg_next (g : N) : N :=
  ((g * 6364136223846793005 + 1442695040888963407) mod 2 ^ 64)%N.

Definition lcg_randbelow (n : nat) (g : N) : nat * N :=
  (N.to_nat ((lcg_next g / 2 ^ 33) mod N.of_nat n)%N, lcg_next g).

#[export, refine] Instance lcg : RandomGen N := {|
  seed a := Z.to_N (Z.abs a);
  randbelow := lcg_randbelow;
  randbelow_lt := _
|}.
Proof.
  intros n g Hn. unfold lcg_randbelow; simpl.
  pose proof (N.mod_upper_bound (lcg_next g / 2 ^ 33) (N.of_nat n)). lia.
Defined.

Section Shuffle.
Context {G : Type} `{!RandomGen G} {A : Type}.

(** [random.shuffle(x)]:
    [for i in reversed(range(1, len(x))): j = randbelow(i + 1);
     x[i], x[j] = x[j], x[i]].  [shuffle_loop i] runs the iterations
    from index [i] down to 1. *)
Fixpoint shuffle_loop (i : nat) (x : list A) (g : G) : outcome (list A) * G :=
  match i with
  | O => (Ok x, g)
  | S i' =>
      let '(j, g') := randbelow (S i' + 1) g in
      match swap x (S i') j with
      | Ok x' => shuffle_loop i' x' g'
      | Raise e => (Raise e, g')
      | Stuck => (Stuck, g')
      end
  end.

Definition shuffle (x : list A) (g : G) : outcome (list A) * G :=
  shuffle_loop (length x - 1) x g.
End Shuffle.

(** ** Building the records (cells "Process the training dataset" and
    the two after it) *)

Definition system_string : string :=
  "Below is an intruction that describes a task, paired with an input that provides further context. Write a response that appropriately completes the request.".

Definition instruction : string :=
"instruction:

Summarize the conversation provided below.

input:
".

(** The body of the three loops over [dataset['train']],
    [dataset['validation']] and [dataset['test']]. *)
Definition temp_dict (dp : pyval) : outcome pyval :=
  dialogue ← getitem_key dp "dialogue";
  user ← py_add (PStr instruction) dialogue;
  summary ← getitem_key dp "summary";
  Ok (PDict
        [ ("system", PStr system_string);
          ("messages", PList
             [ PDict [("role", PStr "user"); ("content", user)];
               PDict [("role", PStr "assistant"); ("content", summary)] ]) ]).

(** ** [dp_transform] *)

(** [len(dp['system'] + dp['messages'][0]['content']
        + dp['messages'][1]['content'])] *)
Definition dp_length (dp : pyval) : outcome Z :=
  system ← getitem_key dp "system";
  user ← getpath dp [Key "messages"; Idx 0; Key "content"];
  text ← py_add system user;
  assistant ← getpath dp [Key "messages"; Idx 1; Key "content"];
  text ← py_add text assistant;
  py_len text.

(** The loop body: [if len(...) <= max_dp_length: lines.append(dp)]. *)
Definition keep (max_dp_length : Z) (lines : list pyval) (dp : pyval)
  : outcome (list pyval) :=
  n ← dp_length dp;
  Ok (if n <=? max_dp_length then lines ++ [dp] else lines).

Definition dp_transform {G} `{!RandomGen G}
  (data_points : list pyval) (num_dps max_dp_length : Z) (g : G)
  : outcome (list pyval) * G :=
  match for_each (keep max_dp_length) data_points [] with
  | Ok lines =>
      match shuffle lines g with
      | (Ok lines, g') => (Ok (slice_to lines num_dps), g')
      | (Raise e, g') => (Raise e, g')
      | (Stuck, g') => (Stuck, g')
      end
  | Raise e => (Raise e, g)
  | Stuck => (Stuck, g)
  end.

(** A record passes the filter when its combined length is defined and at
    most the limit. *)
Definition passes (max_dp_length : Z) (dp : pyval) : bool :=
  match dp_length dp with
  | Ok n => n <=? max_dp_length
  | _ => false
  end.

(** A record as the loops above build it, and a small dataset. *)
Definition record (system user assistant : string) : pyval :=
  PDict
    [ ("system", PStr system);
      ("messages", PList
         [ PDict [("role", PStr "user"); ("content", PStr user)];
           PDict [("role", PStr "assistant"); ("content", PStr assistant)] ]) ].

Definition sample : list pyval :=
  [ record "s" "hi" "ok";
    record "s" "hello there" "ok";
    record "" "a" "b";
    record "x" "y" "z";
    record "p" "q" "rr" ].

(** The records [dp_transform] can measure: the three texts are there and
    can be concatenated. *)
Definition measurable (dp : pyval) : Prop := ∃ n, dp_length dp = Ok n.

End FineTune.

(* ===================================================================== *)
(** * The notebooks from end to end: further definitions *)
(* ===================================================================== *)

Module RagRun.
Import Py Rag.

(** The request [retrieve] sends for its three arguments. *)
Definition retrieve_call (user_query kb_id : pyval)
  (num_of_results : option pyval) : api_call :=
  ApiCall bedrock_agent_client "retrieve"
    [ ("retrievalQuery", PDict [("text", user_query)]);
      ("knowledgeBaseId", kb_id);
      ("retrievalConfiguration", PDict
         [("vectorSearchConfiguration", PDict
             [("numberOfResults", default (PInt 5) num_of_results);
              ("overrideSearchType", PStr "HYBRID")])]) ].

(** The subscripts of the final answer in a Converse reply (line 260). *)
Definition answer_path : list subscript :=
  [Key "output"; Key "message"; Key "content"; Idx 0; Key "text"].

(** The text of the user message for context texts [texts] and query [q]. *)
Definition user_prompt (texts : list string) (q : string) : string :=
  "Here is some additional context:
<context>
" +:+ ("[" +:+ String.concat ", " (repr_str <$> texts) +:+ "]") +:+ "
</context>

Please provide an answer to this user query:
<query>
" +:+ q +:+ "
</query>

The response should be specific and use statistics or numbers when possible.".

Section Notebook.
(** [json.dumps(_, indent=2, default=str)], as in the query cell. *)
Variable json_dumps : pyval → outcome string.

(** The three cells of lines 169-260, run one after the other. *)
Definition notebook (question : string) : Nb unit :=
  cell_query json_dumps question;; cell_prompts;; cell_generate.
End Notebook.

(** A reply whose message has no content block. *)
Definition empty_answer : pyval :=
  PDict [("output", PDict [("message", PDict
           [("role", PStr "assistant"); ("content", PList [])])])].

Definition silent_service (history : list api_call) (c : api_call)
  : exn + pyval :=
  if String.eqb (operation c) "retrieve" then inr sample_results
  else inr empty_answer.

Definition silent_world : world :=
  World (globals (cell_prompts sample_world).2) silent_service [] "".

(** A retrieval response whose second result has no text. *)
Definition malformed_results : pyval :=
  PDict
    [ ("retrievalResults", PList
         [ PDict [("content", PDict [("text", PStr "Amazon AI chips")])];
           PDict [("content", PDict [("type", PStr "IMAGE")])];
           PDict [("content", PDict [("text", PStr "never read")])] ]) ].

(** The state after the prompt cell has run once on the sample results
    and a second, malformed response has been stored since. *)
Definition stale_world : world :=
  World (<["response" := malformed_results]>
           (globals (cell_prompts sample_world).2))
        sample_service [] "".

End RagRun.

(** ** JSON text, as [jsonlines] writes it *)

Module Json.
Import Py Rag.

Definition hex4 (c : ascii) : string :=
  let n := N_of_ascii c in
  String "0" (String "0" (String (hex_digit (n / 16))
    (String (hex_digit (n mod 16)) EmptyString))).

(** [json.JSONEncoder(ensure_ascii=False)] on one character of a string:
    the quote and the backslash get a backslash, the control characters
    their short or [\u00XX] escape; everything else is copied. *)
Definition json_char (c : ascii) : string :=
  if Ascii.eqb c dquote then String backslash (String dquote EmptyString)
  else if Ascii.eqb c backslash then String backslash (String backslash EmptyString)
  else if Ascii.eqb c "008" then String backslash "b"
  else if Ascii.eqb c "012" then String backslash "f"
  else if Ascii.eqb c "010" then String backslash "n"
  else if Ascii.eqb c "013" then String backslash "r"
  else if Ascii.eqb c "009" then String backslash "t"
  else if (N_of_ascii c <? 32)%N then String backslash (String "u" (hex4 c))
  else String c EmptyString.

Definition json_str (s : string) : string :=
  String dquote (String.concat "" (json_char <$> list_ascii_of_string s)
                 +:+ String dquote EmptyString).

(** The encoder's [encode] with its default separators; [None] where the
    text is not modelled (floats). *)
Fixpoint json_encode (v : pyval) : option string :=
  match v with
  | PNone => Some "null"
  | PBool b => Some (if b then "true" else "false")
  | PInt z => Some (pretty z)
  | PFloat _ => None
  | PStr s => Some (json_str s)
  | PList l =>
      items ← mapM json_encode l;
      Some ("[" +:+ String.concat ", " items +:+ "]")
  | PDict d =>
      items ← mapM (λ kv, r ← json_encode kv.2;
                          Some (json_str kv.1 +:+ ": " +:+ r)) d;
      Some ("{" +:+ String.concat ", " items +:+ "}")
  end.

(** The number of line breaks in a text. *)
Definition line_breaks (s : string) : nat :=
  length (List.filter (Ascii.eqb "010") (list_ascii_of_string s)).

(** The text of a file with one line for each of [texts]. *)
Definition jsonl (texts : list string) : string :=
  String.concat "" ((λ text, text +:+ nl) <$> texts).

End Json.

(* ===================================================================== *)
(** * The data preparation notebook, cell by cell *)
(* ===================================================================== *)

Module DataPrep.
Import Py Rag FineTune Json.

(** What the cells of this notebook see and change: the global names, the
    state of the [random] module, the files written, the text printed and
    the requests sent to S3.  [refused] is the operating system's answer
    when a path is opened for writing, [s3] the service behind the client,
    which also sees the files it is asked to read. *)
Record kernel (G : Type) := Kernel {
  names : gmap string pyval;
  random : G;
  files : gmap string string;
  refused : string → option exn;
  s3 : gmap string string → list api_call → api_call → exn + pyval;
  requests : list api_call;
  output : string
}.
Arguments Kernel {G}.
Arguments names {G}.
Arguments random {G}.
Arguments files {G}.
Arguments refused {G}.
Arguments s3 {G}.
Arguments requests {G}.
Arguments output {G}.

Definition Cell (G A : Type) : Type := kernel G → outcome A * kernel G.

#[export] Instance Cell_ret G : MRet (Cell G) := λ A a k, (Ok a, k).
#[export] Instance Cell_bind G : MBind (Cell G) := λ A B f m k,
  match m k with
  | (Ok a, k') => f a k'
  | (Raise e, k') => (Raise e, k')
  | (Stuck, k') => (Stuck, k')
  end.

(** [k'] differs from [k] at most in the names [xs]. *)
Definition same_except {G} (xs : list string) (k k' : kernel G) : Prop :=
  random k' = random k ∧ files k' = files k ∧ refused k' = refused k
  ∧ s3 k' = s3 k ∧ requests k' = requests k ∧ output k' = output k
  ∧ ∀ x, x ∉ xs → names k' !! x = names k !! x.

(** The two texts of the cells at lines 1328 and 1338 are in place. *)
Definition texts_bound {G} (k : kernel G) : Prop :=
  names k !! "system_string" = Some (PStr system_string)
  ∧ names k !! "instruction" = Some (PStr instruction).

(** A row of the dataset with dialogue [d] and summary [s], and the record
    the processing cells build for it. *)
Definition row_texts (row : pyval) (ds : string * string) : Prop :=
  getitem_key row "dialogue" = Ok (PStr ds.1)
  ∧ getitem_key row "summary" = Ok (PStr ds.2).

Definition built (ds : string * string) : pyval :=
  record system_string (instruction +:+ ds.1) ds.2.

(** [out] is what [dp_transform] may return for [source]: records of
    [source], each at most once more than it occurs there, all within the
    limit, and as many as the count and the filter allow. *)
Definition subsample (source : list pyval) (count limit : Z)
  (out : list pyval) : Prop :=
  out ⊆+ source
  ∧ Forall (λ dp, passes limit dp = true) out
  ∧ Z.of_nat (length out)
    = Z.min count (Z.of_nat (length (List.filter (passes limit) source))).

Section Cells.
Context {G : Type} `{!RandomGen G}.

Definition pure {A} (o : outcome A) : Cell G A := λ k, (o, k).

Definition read (x : string) : Cell G pyval := λ k,
  (match names k !! x with
   | Some v => Ok v
   | None => Raise (NameError x)
   end, k).

Definition bind_name (x : string) (v : pyval) : Cell G unit := λ k,
  (Ok (), Kernel (<[x := v]> (names k)) (random k) (files k) (refused k)
                 (s3 k) (requests k) (output k)).

Definition show (args : list pyval) : Cell G unit := λ k,
  match mapM py_str args with
  | Some texts =>
      (Ok (), Kernel (names k) (random k) (files k) (refused k) (s3 k)
                     (requests k) (output k +:+ String.concat " " texts +:+ nl))
  | None => (Stuck, k)
  end.

(** [for x in xs: body], stopping at the first exception. *)
Fixpoint for_rows {A} (body : A → Cell G unit) (xs : list A) : Cell G unit :=
  match xs with
  | [] => mret ()
  | x :: xs' => body x;; for_rows body xs'
  end.

(** ** Processing cells (lines 1361-1370, 1406-1415, 1425-1433) *)

(** [d[key] = v] on a dict: the key keeps its place if it is there and
    goes to the end if it is new. *)
Fixpoint dict_set (d : list (string * pyval)) (key : string) (v : pyval)
  : list (string * pyval) :=
  match d with
  | [] => [(key, v)]
  | (k, x) :: d' =>
      if String.eqb k key then (k, v) :: d' else (k, x) :: dict_set d' key v
  end.

(** [name[key] = v] *)
Definition setitem (x key : string) (v : pyval) : Cell G unit :=
  target ← read x;
  match target with
  | PDict d => bind_name x (PDict (dict_set d key v))
  | _ => pure (Raise TypeError)
  end.

(** The items of the object whose [append] method is asked for; only a
    list has the method. *)
Definition append_method (v : pyval) : outcome (list pyval) :=
  match v with
  | PList l => Ok l
  | _ => Raise AttributeError
  end.

(** The loop body: the row is bound to [dp], a fresh [temp_dict] gets its
    two items, and the finished dict is appended to the list. *)
Definition process_row (target : string) (row : pyval) : Cell G unit :=
  bind_name "dp" row;;
  bind_name "temp_dict" (PDict []);;
  system_string ← read "system_string";
  setitem "temp_dict" "system" system_string;;
  instruction ← read "instruction";
  dp ← read "dp";
  dialogue ← pure (getitem_key dp "dialogue");
  user ← pure (py_add instruction dialogue);
  dp ← read "dp";
  summary ← pure (getitem_key dp "summary");
  setitem "temp_dict" "messages"
    (PList [ PDict [("role", PStr "user"); ("content", user)];
             PDict [("role", PStr "assistant"); ("content", summary)] ]);;
  datapoints ← read target;
  items ← pure (append_method datapoints);
  temp_dict ← read "temp_dict";
  bind_name target (PList (items ++ [temp_dict])).

(** [target=[]] and the loop over [dataset[split]]. *)
Definition cell_datapoints (split target : string) : Cell G unit :=
  bind_name target (PList []);;
  dataset ← read "dataset";
  part ← pure (getitem_key dataset split);
  rows ← pure (py_iter part);
  for_rows (process_row target) rows.

Definition cell_train : Cell G unit := cell_datapoints "train" "datapoints_train".
Definition cell_valid : Cell G unit := cell_datapoints "validation" "datapoints_valid".
Definition cell_test : Cell G unit := cell_datapoints "test" "datapoints_test".

(** ** The call of [dp_transform] on a value, with the generator of the
    kernel (lines 1503-1505) *)

Definition call_dp_transform (data_points : pyval) (num_dps max_dp_length : Z)
  : Cell G pyval := λ k,
  match py_iter data_points with
  | Ok rows =>
      let '(result, g) := dp_transform rows num_dps max_dp_length (random k) in
      (PList <$> result,
       Kernel (names k) g (files k) (refused k) (s3 k) (requests k) (output k))
  | Raise e => (Raise e, k)
  | Stuck => (Stuck, k)
  end.

Definition cell_split : Cell G unit :=
  datapoints_train ← read "datapoints_train";
  train ← call_dp_transform datapoints_train 1000 20000;
  bind_name "train" train;;
  datapoints_valid ← read "datapoints_valid";
  validation ← call_dp_transform datapoints_valid 100 20000;
  bind_name "validation" validation;;
  datapoints_test ← read "datapoints_test";
  test ← call_dp_transform datapoints_test 10 20000;
  bind_name "test" test.

(** The three processing cells and the split, in notebook order. *)
Definition prepare : Cell G unit :=
  cell_train;; cell_valid;; cell_test;; cell_split.

(** ** [jsonl_converter] (lines 1472-1479) *)

(** [jsonlines.open(path, 'w')]: the file is there and empty once it is
    open. *)
Definition open_w (path : string) : Cell G unit := λ k,
  match refused k path with
  | Some e => (Raise e, k)
  | None =>
      (Ok (), Kernel (names k) (random k) (<[path := ""]> (files k))
                     (refused k) (s3 k) (requests k) (output k))
  end.

(** [fp.write(text)], at the end of the file. *)
Definition write (path text : string) : Cell G unit := λ k,
  (Ok (), Kernel (names k) (random k)
                 (<[path := default "" (files k !! path) +:+ text]> (files k))
                 (refused k) (s3 k) (requests k) (output k)).

(** [writer.write(line)]: the JSON text of the object, then a line
    break. *)
Definition writer_write (path : string) (line : pyval) : Cell G unit :=
  text ← pure (of_option (json_encode line));
  write path text;;
  write path nl.

Definition jsonl_converter (dataset : pyval) (file_name : string) : Cell G unit :=
  show [PStr file_name];;
  open_w file_name;;
  lines ← pure (py_iter dataset);
  for_rows (writer_write file_name) lines.

(** ** f-strings over global names *)

Inductive fpart :=
| Lit (text : string)
| Var (x : string).

(** An f-string whose replacement fields are plain names: the parts are
    evaluated from left to right, a name gives the [str] of its value. *)
Fixpoint fstring (parts : list fpart) : Cell G string :=
  match parts with
  | [] => mret EmptyString
  | Lit text :: parts' => rest ← fstring parts'; mret (text +:+ rest)
  | Var x :: parts' =>
      v ← read x;
      text ← pure (of_option (py_str v));
      rest ← fstring parts';
      mret (text +:+ rest)
  end.

(** The text a part stands for in kernel [k], when it has one. *)
Definition fpart_text (k : kernel G) (part : fpart) : option string :=
  match part with
  | Lit text => Some text
  | Var x => names k !! x ≫= py_str
  end.

(** ** Writing, uploading and naming the three files (lines 1546-1548,
    1568-1570, 1580-1582) *)

Definition cell_write : Cell G unit :=
  train ← read "train";
  path ← fstring [Var "abs_path"; Lit "/"; Var "train_file_name"];
  jsonl_converter train path;;
  validation ← read "validation";
  path ← fstring [Var "abs_path"; Lit "/"; Var "validation_file_name"];
  jsonl_converter validation path;;
  test ← read "test";
  path ← fstring [Var "abs_path"; Lit "/"; Var "test_file_name"];
  jsonl_converter test path.

(** The errors of a transfer that [upload_file] passes on as they are: all
    but a [ClientError].  boto3 catches that one and raises its own
    [S3UploadFailedError] in its place, an exception [exn] has no
    constructor for. *)
Definition passed_on (e : exn) : bool :=
  match e with
  | ClientError _ _ => false
  | _ => true
  end.

(** [s3_client.upload_file(Filename, Bucket, Key)], the three arguments
    given by position.  What the caller sees after a [ClientError] of the
    service is outside this model. *)
Definition upload_file (filename bucket key : pyval) : Cell G pyval := λ k,
  let c := ApiCall "s3" "upload_file"
             [("Filename", filename); ("Bucket", bucket); ("Key", key)] in
  (match s3 k (files k) (requests k) c with
   | inr response => Ok response
   | inl e => if passed_on e then Raise e else Stuck
   end,
   Kernel (names k) (random k) (files k) (refused k) (s3 k)
          (requests k ++ [c]) (output k)).

Definition cell_upload : Cell G unit :=
  path ← fstring [Var "abs_path"; Lit "/"; Var "train_file_name"];
  bucket_name ← read "bucket_name";
  key ← fstring [Lit "haiku-fine-tuning-datasets/train/"; Var "train_file_name"];
  upload_file (PStr path) bucket_name (PStr key);;
  path ← fstring [Var "abs_path"; Lit "/"; Var "validation_file_name"];
  bucket_name ← read "bucket_name";
  key ← fstring [Lit "haiku-fine-tuning-datasets/validation/";
                 Var "validation_file_name"];
  upload_file (PStr path) bucket_name (PStr key);;
  path ← fstring [Var "abs_path"; Lit "/"; Var "test_file_name"];
  bucket_name ← read "bucket_name";
  key ← fstring [Lit "haiku-fine-tuning-datasets/test/"; Var "test_file_name"];
  upload_file (PStr path) bucket_name (PStr key);;
  mret ().

Definition cell_uris : Cell G unit :=
  s3_train_uri ←
    fstring [Lit "s3://"; Var "bucket_name";
             Lit "/haiku-fine-tuning-datasets/train/"; Var "train_file_name"];
  bind_name "s3_train_uri" (PStr s3_train_uri);;
  s3_validation_uri ←
    fstring [Lit "s3://"; Var "bucket_name";
             Lit "/haiku-fine-tuning-datasets/validation/";
             Var "validation_file_name"];
  bind_name "s3_validation_uri" (PStr s3_validation_uri);;
  s3_test_uri ←
    fstring [Lit "s3://"; Var "bucket_name";
             Lit "/haiku-fine-tuning-datasets/test/"; Var "test_file_name"];
  bind_name "s3_test_uri" (PStr s3_test_uri).

(** The three cells that put the files on disk, send them to S3 and keep
    their addresses. *)
Definition publish : Cell G unit := cell_write;; cell_upload;; cell_uris.

(** The names the three cells read: the folder, the bucket and the three
    file names, all strings. *)
Definition file_names (k : kernel G) (dir bucket n1 n2 n3 : string) : Prop :=
  names k !! "abs_path" = Some (PStr dir)
  ∧ names k !! "bucket_name" = Some (PStr bucket)
  ∧ names k !! "train_file_name" = Some (PStr n1)
  ∧ names k !! "validation_file_name" = Some (PStr n2)
  ∧ names k !! "test_file_name" = Some (PStr n3).

(** The request of one upload. *)
Definition upload_call (path bucket key : string) : api_call :=
  ApiCall "s3" "upload_file"
    [("Filename", PStr path); ("Bucket", PStr bucket); ("Key", PStr key)].

End Cells.

(** ** Sample data *)

Definition sample_row (id d s : string) : pyval :=
  PDict [("id", PStr id); ("dialogue", PStr d); ("summary", PStr s)].

Definition sample_pairs : list (string * string) :=
  [ ("A: hi
B: hello", "A greets B"); ("C: late?", "C asks"); ("D: ok", "D agrees") ].

Definition sample_rows : list pyval :=
  [ sample_row "1" "A: hi
B: hello" "A greets B";
    sample_row "2" "C: late?" "C asks";
    sample_row "3" "D: ok" "D agrees" ].

Definition sample_dataset : pyval :=
  PDict
    [ ("train", PList sample_rows);
      ("validation", PList [ sample_row "4" "E: bye" "E leaves" ]);
      ("test", PList []) ].

Definition sample_names : gmap string pyval :=
  <["dataset" := sample_dataset]>
    (<["system_string" := PStr system_string]>
       (<["instruction" := PStr instruction]>
          (<["abs_path" := PStr "/home/user/data"]>
             (<["train_file_name" := PStr "train-samsum-1K.jsonl"]>
                (<["validation_file_name" := PStr "validation-samsum-100.jsonl"]>
                   (<["test_file_name" := PStr "test-samsum-10.jsonl"]>
                      (<["bucket_name" := PStr "bedrock-haiku-customization-x"]>
                         ∅))))))).

Definition sample_kernel : kernel N :=
  Kernel sample_names (seed 1) ∅ (λ _, None) (λ _ _ _, inr PNone) [] "".

(** A dataset whose second training row has no summary. *)
Definition broken_dataset : pyval :=
  PDict
    [ ("train", PList [ sample_row "1" "A: hi" "A greets";
                        PDict [("id", PStr "2"); ("dialogue", PStr "C: late?")];
                        sample_row "3" "D: ok" "D agrees" ]);
      ("validation", PList []);
      ("test", PList []) ].

Definition broken_kernel : kernel N :=
  Kernel (<["dataset" := broken_dataset]> sample_names) (seed 1) ∅
         (λ _, None) (λ _ _ _, inr PNone) [] "".

(** [open] raises [ValueError] for a path with a null character in it. *)
Definition nul_refused (path : string) : option exn :=
  if existsb (Ascii.eqb "000") (list_ascii_of_string path)
  then Some ValueError else None.

(** A kernel whose folder name has such a character. *)
Definition badpath_kernel : kernel N :=
  Kernel (<["abs_path" := PStr (String "000" "data")]> sample_names) (seed 1) ∅
         nul_refused (λ _ _ _, inr PNone) [] "".

(** A kernel without a network: every call of the S3 client raises
    botocore's [EndpointConnectionError]. *)
Definition offline_kernel : kernel N :=
  Kernel sample_names (seed 1) ∅ (λ _, None)
         (λ _ _ _, inl (BotoCoreError "EndpointConnectionError")) [] "".

End DataPrep.

(* ===================================================================== *)
(** * Facts about the runtime operations *)
(* ===================================================================== *)

Module PyFacts.
Import Py.

Lemma append_cons c s t : String c s +:+ t = String c (s +:+ t).
Proof. reflexivity. Qed.

Lemma append_nil_r s : s +:+ "" = s.
Proof. induction s as [|c s IH]; [done|]. by rewrite append_cons, IH. Qed.

Lemma append_assoc s t u : (s +:+ t) +:+ u = s +:+ t +:+ u.
Proof. induction s as [|c s IH]; [done|]. by rewrite !append_cons, IH. Qed.

Lemma format_scan_literal kw lit rest :
  literal lit = true →
  format_scan kw InText (lit +:+ rest)
  = out ← format_scan kw InText rest; Ok (lit +:+ out).
Proof.
  induction lit as [|c lit IH]; intros Hl.
  { change ("" +:+ rest) with rest. by destruct (format_scan kw InText rest). }
  unfold literal, has_char in Hl. cbn [list_ascii_of_string existsb] in Hl.
  apply andb_true_iff in Hl as [H1 H2].
  apply negb_true_iff, orb_false_iff in H1 as [H1 H1'].
  apply negb_true_iff, orb_false_iff in H2 as [H2 H2'].
  rewrite Ascii.eqb_sym in H1. rewrite Ascii.eqb_sym in H2.
  rewrite append_cons. cbn [format_scan]. rewrite H1, H2.
  rewrite IH by (unfold literal, has_char; by rewrite H1', H2').
  by destruct (format_scan kw InText rest).
Qed.

Lemma format_scan_name kw acc name rest :
  plain_name name = true →
  format_scan kw (InField acc) (name +:+ String "}" rest)
  = v ← get_field kw (acc +:+ name);
    out ← format_scan kw InText rest; Ok (v +:+ out).
Proof.
  revert acc. induction name as [|c name IH]; intros acc Hp.
  { change ("" +:+ String "}" rest) with (String "}" rest).
    by rewrite append_nil_r. }
  unfold plain_name in Hp. cbn [list_ascii_of_string forallb] in Hp.
  apply andb_true_iff in Hp as [Hc Hp]. apply negb_true_iff in Hc.
  rewrite append_cons. cbn [format_scan].
  assert (Ascii.eqb c "}" = false ∧ Ascii.eqb c "{" = false
          ∧ has_char c "[.!:" = false) as (-> & -> & ->).
  { unfold has_char in *. cbn [list_ascii_of_string existsb] in *.
    repeat (apply orb_false_iff in Hc as [? Hc]). repeat split; try done.
    cbn. repeat (apply orb_false_iff; split); done. }
  rewrite IH by done. by rewrite append_assoc.
Qed.

Lemma format_scan_field kw name rest :
  plain_name name = true →
  format_scan kw InText (String "{" (name +:+ String "}" rest))
  = v ← get_field kw name;
    out ← format_scan kw InText rest; Ok (v +:+ out).
Proof.
  intros Hp. pose proof (format_scan_name kw "" name rest Hp) as Hn.
  change ("" +:+ name) with name in Hn. rewrite <- Hn. clear Hn.
  destruct name as [|c name]; [done|].
  unfold plain_name in Hp. cbn [list_ascii_of_string forallb] in Hp.
  apply andb_true_iff in Hp as [Hc _]. apply negb_true_iff in Hc.
  unfold has_char in Hc. cbn [list_ascii_of_string existsb] in Hc.
  apply orb_false_iff in Hc as [Hc _].
  rewrite append_cons. cbn [format_scan].
  change (Ascii.eqb "{" "{") with true. cbn match. by rewrite Hc.
Qed.

Lemma format_scan_end kw lit :
  literal lit = true → format_scan kw InText lit = Ok lit.
Proof.
  intros Hl. rewrite <- (append_nil_r lit) at 1.
  rewrite format_scan_literal by done. cbn. by rewrite append_nil_r.
Qed.

(** The values a keyword field shows. *)
Lemma get_field_named kw name v text :
  forallb is_digit (list_ascii_of_string name) = false →
  dict_get kw name = Some v → py_str v = Some text →
  get_field kw name = Ok text.
Proof. intros Hd Hk Hs. unfold get_field. by rewrite Hd, Hk, Hs. Qed.

(** [str] of a list of strings: brackets around the [repr] of each item,
    separated by a comma and a space. *)
Lemma py_str_list_of_str texts :
  py_str (PList (PStr <$> texts))
  = Some ("[" +:+ String.concat ", " (repr_str <$> texts) +:+ "]").
Proof.
  cbn [py_str py_repr].
  assert (mapM py_repr (PStr <$> texts) = Some (repr_str <$> texts)) as ->; [|done].
  induction texts as [|t texts IH]; [done|].
  cbn [fmap list_fmap mapM]. fold (mapM py_repr).
  change (list_fmap string pyval PStr texts) with (PStr <$> texts).
  by rewrite IH.
Qed.

(** ** Examples *)

Example repr_plain : repr_str "chunk two" = "'chunk two'".
Proof. reflexivity. Qed.

(** A text with an apostrophe is quoted with double quotes. *)
Example repr_apostrophe :
  repr_str "Amazon's" = String dquote ("Amazon's" +:+ String dquote "").
Proof. reflexivity. Qed.

(** A line break inside a text shows as a backslash and the letter n. *)
Example repr_newline :
  repr_str ("a" +:+ String "010" "b") = "'a\nb'".
Proof. reflexivity. Qed.

Example str_of_list :
  py_str (PList [PStr "a"; PInt 3; PNone]) = Some "['a', 3, None]".
Proof. reflexivity. Qed.

(** The [str] of a list of one text is not that text. *)
Example str_of_list_not_joined : py_str (PList [PStr "a"]) ≠ Some "a".
Proof. discriminate. Qed.

(** Substituted text is not scanned again. *)
Example format_no_rescan :
  str_format "<{a}>" [("a", PStr "{b}")] = Ok "<{b}>".
Proof. reflexivity. Qed.

Example format_braces : str_format "{{{a}}}" [("a", PInt 7)] = Ok "{7}".
Proof. reflexivity. Qed.

(** Errors come in template order: the missing key before the lone
    brace. *)
Example format_first_error :
  str_format "{a} }" [] = Raise (KeyError (PStr "a")).
Proof. reflexivity. Qed.

Example slice_to_examples :
  slice_to [1; 2; 3] 2 = [1; 2] ∧ slice_to [1; 2; 3] 7 = [1; 2; 3]
  ∧ slice_to [1; 2; 3] (-1) = [1; 2] ∧ slice_to [1; 2; 3] (-7) = [].
Proof. done. Qed.

End PyFacts.

(* ===================================================================== *)
(** * Properties of the Retrieve / Converse notebook *)
(* ===================================================================== *)

Module RagFacts.
Import Py PyFacts Rag.

(** The two prompt texts are as long as in the notebook, the blank at
    the end of the second line of the system prompt included. *)
Example prompt_lengths :
  String.length system_prompt = 379%nat
  ∧ String.length user_prompt_template = 218%nat.
Proof. done. Qed.

Lemma issued_one {A} (m : Nb A) w c :
  calls (m w).2 = calls w ++ [c] → issued m w = [c].
Proof. intros Hc. unfold issued. rewrite Hc. by rewrite drop_app_length. Qed.

Lemma issued_none {A} (m : Nb A) w :
  calls (m w).2 = calls w → issued m w = [].
Proof. intros Hc. unfold issued. rewrite Hc. by rewrite drop_all. Qed.

Lemma user_prompt_format ctx q cs qs :
  py_str ctx = Some cs → py_str q = Some qs →
  str_format user_prompt_template [("contexts", ctx); ("user_query", q)]
  = Ok ("Here is some additional context:
<context>
" +:+ cs +:+ "
</context>

Please provide an answer to this user query:
<query>
" +:+ qs +:+ "
</query>

The response should be specific and use statistics or numbers when possible.").
Proof.
  intros Hc Hq. unfold str_format.
  change user_prompt_template with
    ("Here is some additional context:
<context>
" +:+ String "{" ("contexts" +:+ String "}" ("
</context>

Please provide an answer to this user query:
<query>
" +:+ String "{" ("user_query" +:+ String "}" "
</query>

The response should be specific and use statistics or numbers when possible."))))%string.
  rewrite format_scan_literal, format_scan_field by done.
  rewrite format_scan_literal, format_scan_field by done.
  rewrite format_scan_end by done.
  rewrite (get_field_named _ "contexts" ctx cs) by done.
  rewrite (get_field_named _ "user_query" q qs) by done.
  done.
Qed.

(** Unfolding the Converse cell down to its lookups. *)
Ltac run_generate :=
  unfold cell_generate, mbind, Nb_bind, name, assign, lift, sdk_call;
  cbn [globals service calls stdout].

Lemma converse_request_items sp prompt :
  getitem_key (converse_request sp prompt) "system"
    = Ok (PList [PDict [("text", sp)]])
  ∧ getitem_key (converse_request sp prompt) "messages"
    = Ok (PList [PDict [("role", PStr "user");
                        ("content", PList [PDict [("text", PStr prompt)]])]])
  ∧ getitem_key (converse_request sp prompt) "inferenceConfig"
    = Ok (PDict [("temperature", PFloat 0.4); ("topP", PFloat 0.9);
                 ("maxTokens", PInt 500)]).
Proof. done. Qed.

Lemma cell_generate_run w sp tpl ctx q m prompt :
  globals w !! "system_prompt" = Some sp →
  globals w !! "user_prompt_template" = Some (PStr tpl) →
  globals w !! "contexts" = Some ctx →
  globals w !! "user_query" = Some q →
  globals w !! "model_id" = Some m →
  str_format tpl [("contexts", ctx); ("user_query", q)] = Ok prompt →
  let request := converse_call m sp prompt in
  let named := <["converse_request" := converse_request sp prompt]> (globals w) in
  cell_generate w =
    match service w (calls w) request with
    | inl e => (Raise e, World named (service w) (calls w ++ [request]) (stdout w))
    | inr response =>
        let w' := World (<["response" := response]> named) (service w)
                        (calls w ++ [request]) (stdout w) in
        match getpath response
                [Key "output"; Key "message"; Key "content"; Idx 0; Key "text"] with
        | Ok text => print [PStr ("Final Answer:" +:+ nl); text] w'
        | Raise e => (Raise e, w')
        | Stuck => (Stuck, w')
        end
    end.
Proof.
  intros Hsp Htpl Hctx Hq Hm Hf request named. run_generate.
  rewrite Hsp, Htpl. cbn [format_method]. rewrite Hctx, Hq, Hf.
  rewrite lookup_insert_ne, Hm by done.
  rewrite lookup_insert_eq.
  destruct (converse_request_items sp prompt) as (-> & -> & ->).
  subst request named. unfold converse_call.
  destruct (service w (calls w) _) as [e|response]; [done|].
  by rewrite lookup_insert_eq.
Qed.

(** Before the request goes out the cell has only bound
    [converse_request]; a cell that stops there has sent nothing. *)
Lemma cell_generate_cases w :
  (calls (cell_generate w).2 = calls w
   ∧ stdout (cell_generate w).2 = stdout w
   ∧ globals (cell_generate w).2 !! "response" = globals w !! "response"
   ∧ (cell_generate w).1 ≠ Ok ())
  ∨ ∃ sp tpl ctx q m prompt,
      globals w !! "system_prompt" = Some sp
      ∧ globals w !! "user_prompt_template" = Some (PStr tpl)
      ∧ globals w !! "contexts" = Some ctx
      ∧ globals w !! "user_query" = Some q
      ∧ globals w !! "model_id" = Some m
      ∧ str_format tpl [("contexts", ctx); ("user_query", q)] = Ok prompt.
Proof.
  destruct (globals w !! "system_prompt") as [sp|] eqn:Hsp;
    [|left; run_generate; by rewrite Hsp].
  destruct (globals w !! "user_prompt_template") as [tpl'|] eqn:Htpl;
    [|left; run_generate; by rewrite Hsp, Htpl].
  destruct (format_method tpl') as [tpl| |] eqn:Hfm;
    [|left; run_generate; by rewrite Hsp, Htpl, Hfm..].
  assert (tpl' = PStr tpl) as -> by (by destruct tpl'; simplify_eq/=).
  destruct (globals w !! "contexts") as [ctx|] eqn:Hctx;
    [|left; run_generate; rewrite Hsp, Htpl; cbn [format_method];
      by rewrite Hctx].
  destruct (globals w !! "user_query") as [q|] eqn:Hq;
    [|left; run_generate; rewrite Hsp, Htpl; cbn [format_method];
      by rewrite Hctx, Hq].
  destruct (str_format tpl [("contexts", ctx); ("user_query", q)])
    as [prompt| |] eqn:Hf;
    [|left; run_generate; rewrite Hsp, Htpl; cbn [format_method];
      by rewrite Hctx, Hq, Hf..].
  destruct (globals w !! "model_id") as [m|] eqn:Hm.
  { right. by exists sp, tpl, ctx, q, m, prompt. }
  left. run_generate.
  rewrite Hsp, Htpl. cbn [format_method]. rewrite Hctx, Hq, Hf.
  rewrite lookup_insert_ne, Hm by done.
  cbn. by rewrite lookup_insert_ne.
Qed.

Lemma print_run args texts w :
  mapM py_str args = Some texts →
  print args w = (Ok (), World (globals w) (service w) (calls w)
                               (stdout w +:+ String.concat " " texts +:+ nl)).
Proof. intros Hs. unfold print. by rewrite Hs. Qed.

Lemma print_frame args w :
  calls (print args w).2 = calls w
  ∧ globals (print args w).2 = globals w.
Proof. unfold print. by destruct (mapM py_str args). Qed.

(** With the five names bound and the prompt formatted, the cell sends
    one request, whatever comes back. *)
Lemma cell_generate_calls w sp tpl ctx q m prompt :
  globals w !! "system_prompt" = Some sp →
  globals w !! "user_prompt_template" = Some (PStr tpl) →
  globals w !! "contexts" = Some ctx →
  globals w !! "user_query" = Some q →
  globals w !! "model_id" = Some m →
  str_format tpl [("contexts", ctx); ("user_query", q)] = Ok prompt →
  calls (cell_generate w).2 = calls w ++ [converse_call m sp prompt].
Proof.
  intros Hsp Htpl Hctx Hq Hm Hf.
  rewrite (cell_generate_run w sp tpl ctx q m prompt) by done. cbv zeta.
  destruct (service w (calls w) _) as [e|response]; [done|].
  destruct (getpath response _) as [text| |]; [|done..].
  by rewrite (proj1 (print_frame _ _)).
Qed.

(** The comprehension visits the results in order and collects one text
    per result. *)
Lemma collect_texts results texts acc :
  Forall2 (λ rr text, getpath rr [Key "content"; Key "text"] = Ok text)
          results texts →
  for_each (λ acc rr, text ← getpath rr [Key "content"; Key "text"];
                      Ok (acc ++ [text])) results acc
  = Ok (acc ++ texts).
Proof.
  intros Hf. revert acc.
  induction Hf as [|rr text results texts Hrr _ IH]; intros acc.
  { by rewrite app_nil_r. }
  cbn [for_each]. rewrite Hrr. cbn [mbind outcome_bind].
  rewrite IH. by rewrite <- app_assoc.
Qed.

Lemma cell_prompts_run w :
  let named := <["user_prompt_template" := PStr user_prompt_template]>
                 (<["system_prompt" := PStr system_prompt]> (globals w)) in
  let w' := World named (service w) (calls w) (stdout w) in
  cell_prompts w =
    match globals w !! "response" with
    | None => (Raise (NameError "response"), w')
    | Some response =>
        match contexts response with
        | Ok texts =>
            (Ok (), World (<["contexts" := PList texts]> named) (service w)
                          (calls w) (stdout w))
        | Raise e => (Raise e, w')
        | Stuck => (Stuck, w')
        end
    end.
Proof.
  intros named w'. unfold cell_prompts, mbind, Nb_bind, name, assign, lift.
  cbn [globals service calls stdout].
  rewrite !lookup_insert_ne by done.
  destruct (globals w !! "response") as [response|]; [|done].
  by destruct (contexts response).
Qed.

Lemma cell_prompts_frame w :
  calls (cell_prompts w).2 = calls w
  ∧ stdout (cell_prompts w).2 = stdout w
  ∧ globals (cell_prompts w).2 !! "system_prompt" = Some (PStr system_prompt).
Proof.
  rewrite cell_prompts_run. cbv zeta.
  destruct (globals w !! "response") as [response|];
    [destruct (contexts response)|]; cbn [snd calls stdout globals];
    by rewrite ?lookup_insert_ne, ?lookup_insert_eq by done.
Qed.

(** Whatever the two cells send is a Converse request that carries the
    system prompt of the prompt cell. *)
Lemma rag_answer_issued w c :
  c ∈ issued rag_answer w →
  ∃ m prompt, c = converse_call m (PStr system_prompt) prompt.
Proof.
  destruct (cell_prompts_frame w) as (Hc & _ & Hsp).
  unfold issued, rag_answer, mbind, Nb_bind.
  destruct (cell_prompts w) as [[[]| |] w'] eqn:Hp; cbn [snd] in *;
    [|rewrite Hc, drop_all; by intros ?%elem_of_nil..].
  destruct (cell_generate_cases w')
    as [(Hcalls & _)|(sp & tpl & ctx & q & m & prompt & Hsp' & ? & ? & ? & ? & ?)].
  { rewrite Hcalls, Hc, drop_all. by intros ?%elem_of_nil. }
  rewrite (cell_generate_calls w' sp tpl ctx q m prompt) by done.
  rewrite Hc, drop_app_length. intros ->%list_elem_of_singleton.
  exists m, prompt. congruence.
Qed.

(** [retrieve] sends the one request it builds from its arguments. *)
Lemma retrieve_issued w user_query kb_id num_of_results :
  issued (retrieve user_query kb_id num_of_results) w =
    [ApiCall bedrock_agent_client "retrieve"
       [ ("retrievalQuery", PDict [("text", user_query)]);
         ("knowledgeBaseId", kb_id);
         ("retrievalConfiguration", PDict
            [("vectorSearchConfiguration", PDict
                [("numberOfResults", default (PInt 5) num_of_results);
                 ("overrideSearchType", PStr "HYBRID")])]) ]].
Proof. by apply issued_one. Qed.

(** C1.  For every query, knowledge-base identifier and result count
    (5 when omitted), [retrieve] sends exactly one Retrieve request; its
    [retrievalQuery.text] is the query, its [knowledgeBaseId] the
    identifier, its [vectorSearchConfiguration.numberOfResults] the
    count; and [retrieve] returns what the service answers, unchanged,
    touching neither the namespace nor the output. *)
Theorem retrieve_passes_arguments w user_query kb_id num_of_results :
  let run := retrieve user_query kb_id num_of_results w in
  ∃ request,
    issued (retrieve user_query kb_id num_of_results) w = [request]
    ∧ calls run.2 = calls w ++ [request]
    ∧ client request = bedrock_agent_client
    ∧ operation request = "retrieve"
    ∧ getpath (PDict (kwargs request)) [Key "retrievalQuery"; Key "text"]
      = Ok user_query
    ∧ getpath (PDict (kwargs request)) [Key "knowledgeBaseId"] = Ok kb_id
    ∧ number_of_results request = Ok (default (PInt 5) num_of_results)
    ∧ run.1 = match service w (calls w) request with
              | inr response => Ok response
              | inl e => Raise e
              end
    ∧ globals run.2 = globals w
    ∧ stdout run.2 = stdout w.
Proof.
  intros run. eexists. split; [apply retrieve_issued|]. by repeat split.
Qed.

(** C2, as stated, fails: no two calls of [retrieve], whatever their
    arguments, send requests whose search types differ, so no argument
    determines the search type. *)
Lemma retrieve_search_type_not_an_argument :
  ¬ ∃ w q k n w' q' k' n' c c',
      issued (retrieve q k n) w = [c]
      ∧ issued (retrieve q' k' n') w' = [c']
      ∧ search_type c ≠ search_type c'.
Proof.
  intros (w & q & k & n & w' & q' & k' & n' & c & c' & Hc & Hc' & Hne).
  rewrite retrieve_issued in Hc. rewrite retrieve_issued in Hc'.
  by simplify_eq.
Qed.

(** C2, amended.  The result count of the Retrieve request is the
    caller's argument; the search type is the constant HYBRID for every
    call. *)
Theorem retrieve_search_type_fixed w user_query kb_id num_of_results :
  ∃ request,
    issued (retrieve user_query kb_id num_of_results) w = [request]
    ∧ search_type request = Ok (PStr "HYBRID")
    ∧ number_of_results request = Ok (default (PInt 5) num_of_results).
Proof. eexists. split; [apply retrieve_issued|]. by split. Qed.

(** C3.  With the prompt cell's names in place, the Converse cell sends
    one request carrying the system prompt, a message list of one user
    message whose text is the formatted prompt, and the inference
    parameters temperature 0.4, topP 0.9 and maxTokens 500; and what it
    prints as the final answer is the text of the first content element
    of the output message that came back. *)
Theorem generation_request_and_answer w ctx q m prompt :
  globals w !! "system_prompt" = Some (PStr system_prompt) →
  globals w !! "user_prompt_template" = Some (PStr user_prompt_template) →
  globals w !! "contexts" = Some ctx →
  globals w !! "user_query" = Some q →
  globals w !! "model_id" = Some m →
  str_format user_prompt_template [("contexts", ctx); ("user_query", q)]
    = Ok prompt →
  let request :=
    ApiCall bedrock_client "converse"
      [ ("modelId", m);
        ("system", PList [PDict [("text", PStr system_prompt)]]);
        ("messages", PList
           [PDict [("role", PStr "user");
                   ("content", PList [PDict [("text", PStr prompt)]])]]);
        ("inferenceConfig", PDict
           [("temperature", PFloat 0.4);
            ("topP", PFloat 0.9);
            ("maxTokens", PInt 500)]) ] in
  issued cell_generate w = [request]
  ∧ ∀ response text shown,
      service w (calls w) request = inr response →
      getpath response
        [Key "output"; Key "message"; Key "content"; Idx 0; Key "text"]
        = Ok text →
      py_str text = Some shown →
      (cell_generate w).1 = Ok ()
      ∧ stdout (cell_generate w).2
        = stdout w +:+ ("Final Answer:" +:+ nl) +:+ " " +:+ shown +:+ nl.
Proof.
  intros Hsp Htpl Hctx Hq Hm Hf request. split.
  { apply issued_one.
    by rewrite (cell_generate_calls w (PStr system_prompt)
                  user_prompt_template ctx q m prompt). }
  intros response text shown Hs Ht Hshown.
  rewrite (cell_generate_run w (PStr system_prompt)
             user_prompt_template ctx q m prompt) by done. cbv zeta.
  change (converse_call m (PStr system_prompt) prompt) with request.
  rewrite Hs, Ht.
  rewrite (print_run _ ["Final Answer:" +:+ nl; shown])
    by (cbn [mapM py_str]; by rewrite Hshown).
  split; [done|]. cbn [snd stdout String.concat]. by rewrite append_assoc.
Qed.

(** C4.  For a Retrieve response whose results each have a
    [content.text], the prompt cell binds [contexts] to the list of those
    texts, one per result and in the order of the results; [response]
    still holds the same value afterwards, only [system_prompt],
    [user_prompt_template] and [contexts] are bound, and nothing is sent
    or printed. *)
Theorem contexts_in_order w response results texts :
  globals w !! "response" = Some response →
  getitem_key response "retrievalResults" = Ok (PList results) →
  Forall2 (λ rr text, getpath rr [Key "content"; Key "text"] = Ok text)
          results texts →
  let w' := (cell_prompts w).2 in
  contexts response = Ok texts
  ∧ (cell_prompts w).1 = Ok ()
  ∧ globals w' !! "contexts" = Some (PList texts)
  ∧ globals w' !! "response" = Some response
  ∧ (∀ x, x ∉ ["system_prompt"; "user_prompt_template"; "contexts"] →
          globals w' !! x = globals w !! x)
  ∧ calls w' = calls w
  ∧ stdout w' = stdout w.
Proof.
  intros Hr Hres Hf w'.
  assert (contexts response = Ok texts) as Hc.
  { unfold contexts. rewrite Hres. cbn [mbind outcome_bind py_iter].
    by rewrite (collect_texts results texts []). }
  subst w'. rewrite cell_prompts_run. cbv zeta. rewrite Hr, Hc.
  cbn [fst snd globals calls stdout].
  repeat split; try done.
  - by rewrite lookup_insert_eq.
  - by rewrite !lookup_insert_ne.
  - intros x Hx. rewrite !lookup_insert_ne; [done|..];
      intros <-; apply Hx; set_solver.
Qed.

Lemma cell_query_cases json_dumps question w :
  calls (cell_query json_dumps question w).2 = calls w
  ∨ ∃ kb, globals w !! "bedrock_kb_id" = Some kb.
Proof.
  destruct (globals w !! "bedrock_kb_id") as [kb|] eqn:Hkb; [eauto|].
  left. unfold cell_query, mbind, Nb_bind, name, assign.
  cbn [globals service calls stdout].
  rewrite lookup_insert_eq. rewrite lookup_insert_ne, Hkb by done. done.
Qed.

(** The query cell up to its request: the question is stored, the
    request goes out, and an exception ends the cell there. *)
Lemma cell_query_run json_dumps question w kb :
  globals w !! "bedrock_kb_id" = Some kb →
  ∃ request,
    issued (retrieve (PStr question) kb (Some (PInt 3))) w = [request]
    ∧ calls (cell_query json_dumps question w).2 = calls w ++ [request]
    ∧ ∀ e, service w (calls w) request = inl e →
           cell_query json_dumps question w
           = (Raise e, World (<["user_query" := PStr question]> (globals w))
                             (service w) (calls w ++ [request]) (stdout w)).
Proof.
  intros Hkb. eexists. split; [apply retrieve_issued|].
  unfold cell_query, mbind, Nb_bind, name, assign, lift, retrieve, sdk_call.
  cbn [globals service calls stdout].
  rewrite lookup_insert_eq. rewrite lookup_insert_ne, Hkb by done.
  split; [|by intros e ->].
  destruct (service w (calls w) _) as [e|response]; [done|].
  cbn [globals]. rewrite lookup_insert_eq.
  destruct (getitem_key response "retrievalResults") as [results| |]; [|done..].
  destruct (json_dumps results); [|done..].
  by rewrite (proj1 (print_frame _ _)).
Qed.

(** C5.  When the SDK raises [e] for a request, the code that sent it
    ends with that same [e]: [retrieve], the query cell that calls
    [retrieve], and the Converse cell.  The request was sent once and
    nothing follows it; nothing is printed and [response] is not
    rebound. *)
Theorem sdk_errors_propagate json_dumps question user_query kb_id
    num_of_results w c e :
  service w (calls w) c = inl e →
  (issued (retrieve user_query kb_id num_of_results) w = [c] →
   halts_with (retrieve user_query kb_id num_of_results) w c e)
  ∧ (issued (cell_query json_dumps question) w = [c] →
     halts_with (cell_query json_dumps question) w c e)
  ∧ (issued cell_generate w = [c] → halts_with cell_generate w c e).
Proof.
  intros He. split; [|split]; intros Hc.
  - rewrite retrieve_issued in Hc. simplify_eq.
    unfold halts_with, retrieve, sdk_call. cbn [fst]. by rewrite He.
  - destruct (cell_query_cases json_dumps question w) as [Hn|[kb Hkb]].
    { by rewrite (issued_none _ _ Hn) in Hc. }
    destruct (cell_query_run json_dumps question w kb Hkb)
      as (request & _ & Hcalls & Hraise).
    rewrite (issued_one _ _ _ Hcalls) in Hc. simplify_eq.
    unfold halts_with. rewrite (Hraise e He). cbn [fst snd globals calls stdout].
    by rewrite lookup_insert_ne.
  - destruct (cell_generate_cases w)
      as [(Hn & _)|(sp & tpl & ctx & q & m & prompt & ? & ? & ? & ? & ? & ?)].
    { by rewrite (issued_none _ _ Hn) in Hc. }
    rewrite (issued_one _ _ _ (cell_generate_calls w sp tpl ctx q m prompt
               ltac:(done) ltac:(done) ltac:(done) ltac:(done) ltac:(done)
               ltac:(done))) in Hc.
    simplify_eq. unfold halts_with.
    rewrite (cell_generate_run w sp tpl ctx q m prompt) by done. cbv zeta.
    rewrite He. cbn [fst snd globals calls stdout].
    by rewrite lookup_insert_ne.
Qed.

(** C9.  For every query string and every list of context strings, the
    single user message of the Converse request has as its text the
    template with the [str] of the contexts list, brackets and quoted
    items included, between the context tags and the query itself
    between the query tags. *)
Theorem user_message_text w sp texts q m :
  globals w !! "system_prompt" = Some sp →
  globals w !! "user_prompt_template" = Some (PStr user_prompt_template) →
  globals w !! "contexts" = Some (PList (PStr <$> texts)) →
  globals w !! "user_query" = Some (PStr q) →
  globals w !! "model_id" = Some m →
  ∃ request,
    issued cell_generate w = [request]
    ∧ dict_get (kwargs request) "messages" =
        Some (PList
          [PDict [("role", PStr "user");
                  ("content", PList [PDict [("text", PStr
("Here is some additional context:
<context>
" +:+ ("[" +:+ String.concat ", " (repr_str <$> texts) +:+ "]") +:+ "
</context>

Please provide an answer to this user query:
<query>
" +:+ q +:+ "
</query>

The response should be specific and use statistics or numbers when possible."))]])]]).
Proof.
  intros Hsp Htpl Hctx Hq Hm.
  pose proof (user_prompt_format (PList (PStr <$> texts)) (PStr q) _ q
                (py_str_list_of_str texts) eq_refl) as Hf.
  eexists. split.
  { apply issued_one. by eapply cell_generate_calls. }
  done.
Qed.

(** C10.  Any two runs of the prompt and Converse cells, from any two
    worlds (any queries, any stored Retrieve responses, any services),
    send Converse requests with the same [system] field: the one text
    block holding [system_prompt]. *)
Theorem system_instruction_fixed w1 w2 c1 c2 :
  c1 ∈ issued rag_answer w1 →
  c2 ∈ issued rag_answer w2 →
  operation c1 = "converse"
  ∧ dict_get (kwargs c1) "system"
    = Some (PList [PDict [("text", PStr system_prompt)]])
  ∧ dict_get (kwargs c2) "system" = dict_get (kwargs c1) "system".
Proof.
  intros (m1 & p1 & ->)%rag_answer_issued (m2 & p2 & ->)%rag_answer_issued.
  done.
Qed.

(** ** The theorems at the sample data *)

Lemma generation_request_and_answer_witness :
  let w := (cell_prompts sample_world).2 in
  issued cell_generate w
    = [converse_call (PStr model_id) (PStr system_prompt)
         "Here is some additional context:
<context>
['Amazon AI chips', 'Bedrock and CodeWhisperer']
</context>

Please provide an answer to this user query:
<query>
What is Amazon doing in AI?
</query>

The response should be specific and use statistics or numbers when possible."]
  ∧ (cell_generate w).1 = Ok ()
  ∧ stdout (cell_generate w).2
    = "Final Answer:
 Chips and Bedrock.
".
Proof.
  intros w.
  edestruct (generation_request_and_answer w) as [Hreq Hans];
    [reflexivity..|vm_compute; reflexivity|].
  split; [exact Hreq|].
  apply (Hans sample_answer (PStr "Chips and Bedrock.") "Chips and Bedrock.");
    reflexivity.
Defined.

Lemma contexts_in_order_witness :
  contexts sample_results
    = Ok [PStr "Amazon AI chips"; PStr "Bedrock and CodeWhisperer"]
  ∧ globals (cell_prompts sample_world).2 !! "contexts"
    = Some (PList [PStr "Amazon AI chips"; PStr "Bedrock and CodeWhisperer"])
  ∧ globals (cell_prompts sample_world).2 !! "response" = Some sample_results.
Proof.
  edestruct (contexts_in_order sample_world sample_results)
    as (Hc & _ & Hctx & Hresp & _);
    [reflexivity | reflexivity | repeat constructor |].
  exact (conj Hc (conj Hctx Hresp)).
Defined.

Lemma sdk_errors_propagate_witness :
  let e := ClientError "ThrottlingException" "Too many requests" in
  (∃ c, halts_with (retrieve (PStr "q") (PStr "KB12345678") None)
                   throttled_world c e)
  ∧ (∃ c, halts_with (cell_query (λ _, Ok "[]") "q") throttled_world c e)
  ∧ (∃ c, halts_with cell_generate throttled_world c e).
Proof.
  intros e. split; [|split]; eexists.
  - eapply (sdk_errors_propagate (λ _, Ok "[]") "q" (PStr "q")
              (PStr "KB12345678") None throttled_world _ e eq_refl).
    apply retrieve_issued.
  - eapply (sdk_errors_propagate (λ _, Ok "[]") "q" (PStr "q")
              (PStr "KB12345678") None throttled_world _ e eq_refl).
    vm_compute. reflexivity.
  - eapply (sdk_errors_propagate (λ _, Ok "[]") "q" (PStr "q")
              (PStr "KB12345678") None throttled_world _ e eq_refl).
    vm_compute. reflexivity.
Defined.

Lemma user_message_text_witness :
  ∃ request,
    issued cell_generate (cell_prompts sample_world).2 = [request]
    ∧ getpath (PDict (kwargs request))
        [Key "messages"; Idx 0; Key "content"; Idx 0; Key "text"]
      = Ok (PStr "Here is some additional context:
<context>
['Amazon AI chips', 'Bedrock and CodeWhisperer']
</context>

Please provide an answer to this user query:
<query>
What is Amazon doing in AI?
</query>

The response should be specific and use statistics or numbers when possible.").
Proof.
  edestruct (user_message_text (cell_prompts sample_world).2
               (PStr system_prompt)
               ["Amazon AI chips"; "Bedrock and CodeWhisperer"]
               "What is Amazon doing in AI?" (PStr model_id))
    as (request & Hreq & Hmsg); [reflexivity..|].
  exists request. split; [exact Hreq|].
  cbn [getpath getitem getitem_key]. rewrite Hmsg. reflexivity.
Defined.

Lemma system_instruction_fixed_witness :
  ∃ c1 c2,
    issued rag_answer sample_world = [c1]
    ∧ issued rag_answer other_world = [c2]
    ∧ dict_get (kwargs c1) "messages" ≠ dict_get (kwargs c2) "messages"
    ∧ dict_get (kwargs c2) "system" = dict_get (kwargs c1) "system".
Proof.
  eexists _, _. split; [vm_compute; reflexivity|].
  split; [vm_compute; reflexivity|]. split; [discriminate|].
  eapply (system_instruction_fixed sample_world other_world).
  - vm_compute. apply list_elem_of_here.
  - vm_compute. apply list_elem_of_here.
Defined.

End RagFacts.

(* ===================================================================== *)
(** * Properties of [dp_transform] *)
(* ===================================================================== *)

Module FineTuneFacts.
Import Py FineTune.

(** The filter loop keeps, in input order, the records that pass. *)
Lemma keep_loop L dps acc :
  Forall measurable dps →
  for_each (keep L) dps acc = Ok (acc ++ List.filter (passes L) dps).
Proof.
  intros Hm. revert acc.
  induction Hm as [|dp dps [n Hn] _ IH]; intros acc; simpl.
  - by rewrite app_nil_r.
  - assert (keep L acc dp = Ok (if n <=? L then acc ++ [dp] else acc)) as Hk
      by (unfold keep; by rewrite Hn).
    assert (passes L dp = (n <=? L)) as Hp by (unfold passes; by rewrite Hn).
    cbn [for_each List.filter]. rewrite Hk, Hp. cbn [mbind outcome_bind].
    destruct (n <=? L); rewrite IH; [by rewrite <- app_assoc | done].
Qed.

Lemma passes_within L dp :
  passes L dp = true → ∃ k, dp_length dp = Ok k ∧ k ≤ L.
Proof.
  unfold passes. destruct (dp_length dp) as [k| |]; [|done..].
  intros Hk. exists k. split; [done | lia].
Qed.

Section ShuffleFacts.
Context {G : Type} `{!RandomGen G}.

(** Every iteration of the shuffle finds both indices inside the list,
    and exchanging two items keeps the items. *)
Lemma shuffle_loop_perm {A} i (x : list A) (g : G) :
  (i < length x ∨ i = 0)%nat →
  ∃ x', (shuffle_loop i x g).1 = Ok x' ∧ x' ≡ₚ x.
Proof.
  revert x g. induction i as [|i IH]; intros x g Hi; cbn [shuffle_loop].
  { eauto. }
  destruct (randbelow (S i + 1) g) as [j g'] eqn:Hr.
  assert (j < S i + 1)%nat as Hj.
  { pose proof (randbelow_lt (S i + 1) g) as Hlt.
    rewrite Hr in Hlt. simpl in Hlt. lia. }
  destruct Hi as [Hi|?]; [|lia].
  destruct (lookup_lt_is_Some_2 x j) as [xj Hxj]; [lia|].
  destruct (lookup_lt_is_Some_2 x (S i)) as [xi Hxi]; [lia|].
  unfold swap. rewrite Hxj, Hxi.
  destruct (IH (<[j:=xi]> (<[S i:=xj]> x)) g') as (x' & Hx' & Hp).
  { left. rewrite !length_insert. lia. }
  exists x'. split; [done|].
  rewrite Hp. by apply Permutation_insert_swap.
Qed.

Lemma shuffle_perm {A} (x : list A) (g : G) :
  ∃ x', (shuffle x g).1 = Ok x' ∧ x' ≡ₚ x.
Proof. apply shuffle_loop_perm. destruct x; simpl; lia. Qed.

(** [dp_transform] on measurable records: the first [num_dps] items of
    some reordering of the records that pass. *)
Lemma dp_transform_spec dps n L (g : G) :
  Forall measurable dps →
  ∃ lines, (dp_transform dps n L g).1 = Ok (slice_to lines n)
           ∧ lines ≡ₚ List.filter (passes L) dps.
Proof.
  intros Hm. unfold dp_transform. rewrite (keep_loop L dps []) by done.
  simpl. destruct (shuffle_perm (List.filter (passes L) dps) g)
    as (lines & Hs & Hp).
  destruct (shuffle _ g) as [[lines'| |] g']; simplify_eq/=.
  by exists lines.
Qed.
End ShuffleFacts.

Lemma slice_to_take {A} (l : list A) n : ∃ k, slice_to l n = take k l.
Proof. unfold slice_to. destruct (n <? 0); eauto. Qed.

Lemma slice_to_length {A} (l : list A) n :
  0 ≤ n → Z.of_nat (length (slice_to l n)) = Z.min n (Z.of_nat (length l)).
Proof.
  intros Hn. unfold slice_to.
  destruct (Z.ltb_spec n 0); [lia|]. rewrite length_take. lia.
Qed.

Lemma slice_to_all {A} (l : list A) n :
  Z.of_nat (length l) ≤ n → slice_to l n = l.
Proof.
  intros Hn. unfold slice_to.
  destruct (Z.ltb_spec n 0); [lia|]. apply take_ge. lia.
Qed.








(** ** Examples *)

(** The records the notebook builds from a dialogue and its summary can
    be measured. *)
Lemma temp_dict_measurable dialogue summary :
  ∃ dp, temp_dict (PDict [("dialogue", PStr dialogue);
                          ("summary", PStr summary)]) = Ok dp
        ∧ dp = record system_string (instruction +:+ dialogue) summary
        ∧ measurable dp.
Proof. eexists. split; [done|]. split; [done|]. by eexists. Qed.

(** One short record, limit 100, count 1: that record comes back,
    whatever the generator. *)
Example dp_transform_single {G} `{!RandomGen G} (g : G) :
  (dp_transform [record "s" "hi" "ok"] 1 100 g).1 = Ok [record "s" "hi" "ok"].
Proof. reflexivity. Qed.

(** A negative count cuts items off the end of the shuffled list. *)
Example dp_transform_negative_count :
  length <$> (dp_transform sample (-1) 5 (seed (G:=N) 2)).1 = Ok 3%nat.
Proof. vm_compute. reflexivity. Qed.

(** With the count below the number of passing records, the seed also
    decides which records are returned. *)
Example dp_transform_cut :
  (dp_transform sample 1 5 (seed (G:=N) 1)).1 = Ok [record "" "a" "b"]
  ∧ (dp_transform sample 1 5 (seed (G:=N) 6)).1 ≠ Ok [record "" "a" "b"].
Proof. split; vm_compute; [reflexivity | discriminate]. Qed.

End FineTuneFacts.

(* ===================================================================== *)
(** * Loops, slices and names: shared facts *)
(* ===================================================================== *)

Module LoopFacts.
Import Py PyFacts FineTune FineTuneFacts.

(** Membership in a list of names that is written out. *)
Ltac names_in :=
  rewrite ?not_elem_of_cons, ?elem_of_cons, ?elem_of_nil in *;
  try tauto; try (intuition congruence).

(** Lookups in a map built by insertions at names that are written out. *)
Ltac look :=
  repeat (rewrite lookup_insert_eq || rewrite lookup_insert_ne by done).

(** Records written out in full can be measured. *)
Ltac sample_measurable :=
  repeat constructor; eexists; vm_compute; reflexivity.

(** A loop over two lists one after the other. *)
Lemma for_each_app {A B} (body : B → A → outcome B) xs ys acc :
  for_each body (xs ++ ys) acc = acc' ← for_each body xs acc; for_each body ys acc'.
Proof.
  revert acc. induction xs as [|x xs IH]; intros acc; [done|].
  cbn [app for_each]. destruct (body acc x); [|done..]. apply IH.
Qed.

Lemma filter_sublist {A} (f : A → bool) (l : list A) :
  List.filter f l `sublist_of` l.
Proof.
  induction l as [|x l IH]; [done|]. cbn [List.filter].
  destruct (f x); by constructor.
Qed.

Lemma filter_all {A} (f : A → bool) (l : list A) :
  Forall (λ x, f x = true) l → List.filter f l = l.
Proof.
  induction 1 as [|x l Hx _ IH]; [done|]. cbn [List.filter]. by rewrite Hx, IH.
Qed.

Lemma filter_passing {A} (f : A → bool) (l : list A) :
  Forall (λ x, f x = true) (List.filter f l).
Proof.
  apply Forall_forall. intros x Hin.
  by apply list_elem_of_In, filter_In in Hin as [_ Hin].
Qed.

Lemma slice_to_sublist {A} (l : list A) n : slice_to l n `sublist_of` l.
Proof. destruct (slice_to_take l n) as [k ->]. apply sublist_take. Qed.

Lemma length_append s t :
  String.length (s +:+ t) = (String.length s + String.length t)%nat.
Proof.
  induction s as [|c s IH]; [done|]. rewrite append_cons. simpl. by rewrite IH.
Qed.

End LoopFacts.

(* ===================================================================== *)
(** * The RAG notebook from the question to the answer *)
(* ===================================================================== *)

Module RagRunFacts.
Import Py PyFacts Rag RagFacts RagRun LoopFacts.

Lemma user_prompt_ok texts q :
  str_format user_prompt_template
    [("contexts", PList (PStr <$> texts)); ("user_query", PStr q)]
  = Ok (user_prompt texts q).
Proof. by apply user_prompt_format; [apply py_str_list_of_str|]. Qed.

Lemma contexts_texts response results texts :
  getitem_key response "retrievalResults" = Ok (PList results) →
  Forall2 (λ rr text, getpath rr [Key "content"; Key "text"] = Ok text)
          results texts →
  contexts response = Ok texts.
Proof.
  intros Hres Hf. unfold contexts. rewrite Hres. cbn [mbind outcome_bind py_iter].
  by rewrite (collect_texts results texts []).
Qed.

(** The comprehension stops at the first result without a text. *)
Lemma contexts_stop response good bad rest texts e :
  getitem_key response "retrievalResults" = Ok (PList (good ++ bad :: rest)) →
  Forall2 (λ rr text, getpath rr [Key "content"; Key "text"] = Ok text)
          good texts →
  getpath bad [Key "content"; Key "text"] = Raise e →
  contexts response = Raise e.
Proof.
  intros Hres Hf Hbad. unfold contexts. rewrite Hres.
  cbn [mbind outcome_bind py_iter]. rewrite for_each_app.
  rewrite (collect_texts good texts []) by done.
  cbn [mbind outcome_bind for_each]. by rewrite Hbad.
Qed.

(** X3.  When the stored retrieval response has a result without
    [content.text], the prompt cell raises the error of that first
    malformed result; it sends and prints nothing.  The two prompt texts
    are already rebound by then, while [contexts] keeps whatever it named
    before.  The Converse cell, when it is run in the state left behind,
    works with that: where [contexts] was not bound it raises the
    [NameError] and sends nothing, and where an earlier run had bound it,
    the request goes out with those old contexts. *)
Theorem prompt_cell_malformed_result w response good bad rest texts e :
  globals w !! "response" = Some response →
  getitem_key response "retrievalResults" = Ok (PList (good ++ bad :: rest)) →
  Forall2 (λ rr text, getpath rr [Key "content"; Key "text"] = Ok text)
          good texts →
  getpath bad [Key "content"; Key "text"] = Raise e →
  let w' := (cell_prompts w).2 in
  (cell_prompts w).1 = Raise e
  ∧ calls w' = calls w
  ∧ stdout w' = stdout w
  ∧ globals w' !! "contexts" = globals w !! "contexts"
  ∧ globals w' !! "system_prompt" = Some (PStr system_prompt)
  ∧ globals w' !! "user_prompt_template" = Some (PStr user_prompt_template)
  ∧ (globals w !! "contexts" = None →
     (cell_generate w').1 = Raise (NameError "contexts")
     ∧ issued cell_generate w' = [])
  ∧ (∀ old q m prompt,
       globals w !! "contexts" = Some old →
       globals w !! "user_query" = Some q →
       globals w !! "model_id" = Some m →
       str_format user_prompt_template [("contexts", old); ("user_query", q)]
         = Ok prompt →
       issued cell_generate w'
       = [converse_call m (PStr system_prompt) prompt]).
Proof.
  intros Hr Hres Hf Hbad w'. subst w'.
  pose proof (contexts_stop _ _ _ _ _ _ Hres Hf Hbad) as Hc.
  assert (cell_prompts w = (Raise e,
            World (<["user_prompt_template" := PStr user_prompt_template]>
                     (<["system_prompt" := PStr system_prompt]> (globals w)))
                  (service w) (calls w) (stdout w))) as Hrun.
  { rewrite cell_prompts_run. cbv zeta. by rewrite Hr, Hc. }
  rewrite Hrun. cbn [fst snd globals calls stdout].
  split; [done|]. split; [done|]. split; [done|].
  split; [by rewrite !lookup_insert_ne|].
  split; [by rewrite lookup_insert_ne, lookup_insert_eq|].
  split; [by rewrite lookup_insert_eq|]. split.
  - intros Hnone.
    match goal with |- (cell_generate ?w1).1 = _ ∧ _ =>
      assert (cell_generate w1 = (Raise (NameError "contexts"), w1)) as Hg end.
    { run_generate. rewrite lookup_insert_ne, lookup_insert_eq by done.
      rewrite lookup_insert_eq. cbn [format_method].
      by rewrite !lookup_insert_ne, Hnone by done. }
    split; [by rewrite Hg|]. apply issued_none. by rewrite Hg.
  - intros old q m prompt Hold Hq Hm Hfmt. apply issued_one.
    apply (cell_generate_calls _ (PStr system_prompt) user_prompt_template
             old q m prompt); cbn [globals]; try done.
    + by rewrite lookup_insert_ne, lookup_insert_eq.
    + by rewrite lookup_insert_eq.
    + by rewrite !lookup_insert_ne.
    + by rewrite !lookup_insert_ne.
    + by rewrite !lookup_insert_ne.
Qed.

Lemma prompt_cell_malformed_result_witness :
  let w' := (cell_prompts stale_world).2 in
  (cell_prompts stale_world).1 = Raise (KeyError (PStr "text"))
  ∧ globals w' !! "contexts"
    = Some (PList [PStr "Amazon AI chips"; PStr "Bedrock and CodeWhisperer"])
  ∧ issued cell_generate w'
    = [converse_call (PStr model_id) (PStr system_prompt)
         (user_prompt ["Amazon AI chips"; "Bedrock and CodeWhisperer"]
            "What is Amazon doing in AI?")].
Proof.
  intros w'.
  edestruct (prompt_cell_malformed_result stale_world malformed_results
               [PDict [("content", PDict [("text", PStr "Amazon AI chips")])]]
               (PDict [("content", PDict [("type", PStr "IMAGE")])])
               [PDict [("content", PDict [("text", PStr "never read")])]]
               [PStr "Amazon AI chips"] (KeyError (PStr "text")))
    as (Hr & _ & _ & Hc & _ & _ & _ & Hold);
    [reflexivity | reflexivity | repeat constructor | reflexivity |].
  split; [exact Hr|]. split; [exact Hc|].
  apply (Hold (PList [PStr "Amazon AI chips"; PStr "Bedrock and CodeWhisperer"])
              (PStr "What is Amazon doing in AI?") (PStr model_id));
    [reflexivity | reflexivity | reflexivity | vm_compute; reflexivity].
Defined.

(** After a reply has come back, [response] names that reply, whatever
    happens to the answer. *)
Lemma cell_generate_reply w sp tpl ctx q m prompt reply :
  globals w !! "system_prompt" = Some sp →
  globals w !! "user_prompt_template" = Some (PStr tpl) →
  globals w !! "contexts" = Some ctx →
  globals w !! "user_query" = Some q →
  globals w !! "model_id" = Some m →
  str_format tpl [("contexts", ctx); ("user_query", q)] = Ok prompt →
  service w (calls w) (converse_call m sp prompt) = inr reply →
  globals (cell_generate w).2
  = <["response" := reply]>
      (<["converse_request" := converse_request sp prompt]> (globals w)).
Proof.
  intros Hsp Htpl Hctx Hq Hm Hf Hs.
  rewrite (cell_generate_run w sp tpl ctx q m prompt) by done. cbv zeta.
  rewrite Hs. destruct (getpath reply _) as [text| |]; [|done..].
  by rewrite (proj2 (print_frame _ _)).
Qed.

(** X4.  The Converse cell stores the model's reply under [response], the
    name the retrieval response had.  Running the prompt cell again after
    it therefore raises (the reply has no [retrievalResults]), [contexts]
    keeps its value and no request is sent. *)
Theorem prompt_cell_after_converse w sp tpl ctx q m prompt reply e :
  globals w !! "system_prompt" = Some sp →
  globals w !! "user_prompt_template" = Some (PStr tpl) →
  globals w !! "contexts" = Some ctx →
  globals w !! "user_query" = Some q →
  globals w !! "model_id" = Some m →
  str_format tpl [("contexts", ctx); ("user_query", q)] = Ok prompt →
  service w (calls w) (converse_call m sp prompt) = inr reply →
  getitem_key reply "retrievalResults" = Raise e →
  let w' := (cell_generate w).2 in
  globals w' !! "response" = Some reply
  ∧ (cell_prompts w').1 = Raise e
  ∧ globals (cell_prompts w').2 !! "contexts" = Some ctx
  ∧ issued rag_answer w' = [].
Proof.
  intros Hsp Htpl Hctx Hq Hm Hf Hs He w'.
  assert (globals w' !! "response" = Some reply) as Hr.
  { subst w'. rewrite (cell_generate_reply w sp tpl ctx q m prompt reply) by done.
    by rewrite lookup_insert_eq. }
  assert (globals w' !! "contexts" = Some ctx) as Hctx'.
  { subst w'. rewrite (cell_generate_reply w sp tpl ctx q m prompt reply) by done.
    by rewrite !lookup_insert_ne. }
  assert (contexts reply = Raise e) as Hc by (unfold contexts; by rewrite He).
  assert (cell_prompts w' = (Raise e,
            World (<["user_prompt_template" := PStr user_prompt_template]>
                     (<["system_prompt" := PStr system_prompt]> (globals w')))
                  (service w') (calls w') (stdout w'))) as Hrun.
  { rewrite cell_prompts_run. cbv zeta. by rewrite Hr, Hc. }
  split; [done|]. rewrite Hrun. cbn [fst snd globals].
  split; [done|]. split; [by rewrite !lookup_insert_ne|].
  apply issued_none. unfold rag_answer, mbind, Nb_bind. by rewrite Hrun.
Qed.

Lemma prompt_cell_after_converse_witness :
  let w' := (cell_generate (cell_prompts sample_world).2).2 in
  globals w' !! "response" = Some sample_answer
  ∧ (cell_prompts w').1 = Raise (KeyError (PStr "retrievalResults"))
  ∧ issued rag_answer w' = [].
Proof.
  intros w'.
  edestruct (prompt_cell_after_converse (cell_prompts sample_world).2
               (PStr system_prompt) user_prompt_template
               (PList [PStr "Amazon AI chips"; PStr "Bedrock and CodeWhisperer"])
               (PStr "What is Amazon doing in AI?") (PStr model_id)
               (user_prompt ["Amazon AI chips"; "Bedrock and CodeWhisperer"]
                  "What is Amazon doing in AI?")
               sample_answer (KeyError (PStr "retrievalResults")))
    as (Hr & He & _ & Hi);
    [reflexivity.. | vm_compute; reflexivity | reflexivity | reflexivity |].
  exact (conj Hr (conj He Hi)).
Defined.

(** X5.  When the reply of the model has no text at
    [output.message.content[0].text], the Converse cell raises the error of
    that lookup after the request has been sent: [response] names the
    reply and nothing is printed. *)
Theorem converse_cell_no_answer w sp tpl ctx q m prompt reply e :
  globals w !! "system_prompt" = Some sp →
  globals w !! "user_prompt_template" = Some (PStr tpl) →
  globals w !! "contexts" = Some ctx →
  globals w !! "user_query" = Some q →
  globals w !! "model_id" = Some m →
  str_format tpl [("contexts", ctx); ("user_query", q)] = Ok prompt →
  service w (calls w) (converse_call m sp prompt) = inr reply →
  getpath reply answer_path = Raise e →
  let w' := (cell_generate w).2 in
  (cell_generate w).1 = Raise e
  ∧ calls w' = calls w ++ [converse_call m sp prompt]
  ∧ globals w' !! "response" = Some reply
  ∧ stdout w' = stdout w.
Proof.
  intros Hsp Htpl Hctx Hq Hm Hf Hs He w'. subst w'.
  rewrite (cell_generate_run w sp tpl ctx q m prompt) by done. cbv zeta.
  rewrite Hs. unfold answer_path in He. rewrite He. cbn [fst snd calls globals stdout].
  by rewrite lookup_insert_eq.
Qed.

Lemma converse_cell_no_answer_witness :
  (cell_generate silent_world).1 = Raise IndexError
  ∧ length (calls (cell_generate silent_world).2) = 1%nat
  ∧ globals (cell_generate silent_world).2 !! "response" = Some empty_answer
  ∧ stdout (cell_generate silent_world).2 = "".
Proof.
  edestruct (converse_cell_no_answer silent_world
               (PStr system_prompt) user_prompt_template
               (PList [PStr "Amazon AI chips"; PStr "Bedrock and CodeWhisperer"])
               (PStr "What is Amazon doing in AI?") (PStr model_id)
               (user_prompt ["Amazon AI chips"; "Bedrock and CodeWhisperer"]
                  "What is Amazon doing in AI?")
               empty_answer IndexError)
    as (He & Hc & Hr & Hs);
    [reflexivity.. | vm_compute; reflexivity | reflexivity | reflexivity |].
  split; [exact He|]. split; [by rewrite Hc|]. exact (conj Hr Hs).
Defined.

(** An empty content list has no first element; a first block without a
    text has no such key. *)
Lemma answer_path_empty reply :
  getpath reply [Key "output"; Key "message"; Key "content"] = Ok (PList []) →
  getpath reply answer_path = Raise IndexError.
Proof.
  unfold answer_path. cbn [getpath getitem].
  destruct (getitem_key reply "output") as [o| |]; [|done..].
  cbn [mbind outcome_bind].
  destruct (getitem_key o "message") as [msg| |]; [|done..].
  cbn [mbind outcome_bind].
  destruct (getitem_key msg "content") as [c| |]; [|done..].
  cbn [mbind outcome_bind]. by intros [= ->].
Qed.


(** X1.  The three cells run one after the other on a question: exactly
    two requests are sent, the Retrieve request for the question with
    three results and then the Converse request whose user message holds
    the retrieved texts and the question; with an answer text in the
    reply, the run ends normally and prints the results and the answer. *)
Theorem notebook_run json_dumps question w kb m reply results texts shown :
  globals w !! "bedrock_kb_id" = Some kb →
  globals w !! "model_id" = Some m →
  let asked := retrieve_call (PStr question) kb (Some (PInt 3)) in
  let generated :=
    converse_call m (PStr system_prompt) (user_prompt texts question) in
  service w (calls w) asked = inr reply →
  getitem_key reply "retrievalResults" = Ok (PList results) →
  Forall2 (λ rr text, getpath rr [Key "content"; Key "text"] = Ok (PStr text))
          results texts →
  json_dumps (PList results) = Ok shown →
  issued (notebook json_dumps question) w = [asked; generated]
  ∧ ∀ answer text,
      service w (calls w ++ [asked]) generated = inr answer →
      getpath answer answer_path = Ok (PStr text) →
      (notebook json_dumps question w).1 = Ok ()
      ∧ stdout (notebook json_dumps question w).2
        = stdout w +:+ ("Retrieval Results:" +:+ nl +:+ " " +:+ shown +:+ nl)
                   +:+ ("Final Answer:" +:+ nl +:+ " " +:+ text +:+ nl).
Proof.
  intros Hkb Hm asked generated Hs Hres Hf Hj.
  (* the query cell *)
  set (w1 := World (<["response" := reply]>
                      (<["user_query" := PStr question]> (globals w)))
                   (service w) (calls w ++ [asked])
                   (stdout w +:+ ("Retrieval Results:" +:+ nl +:+ " " +:+ shown) +:+ nl)).
  assert (cell_query json_dumps question w = (Ok (), w1)) as Hq.
  { unfold cell_query, mbind, Nb_bind, name, assign, lift, retrieve, sdk_call.
    cbn [globals service calls stdout].
    rewrite lookup_insert_eq. rewrite lookup_insert_ne, Hkb by done.
    subst w1 asked. unfold retrieve_call in *. rewrite Hs.
    cbn [globals]. rewrite lookup_insert_eq.
    rewrite Hres. cbn [mbind outcome_bind]. rewrite Hj.
    by rewrite (print_run _ ["Retrieval Results:" +:+ nl; shown]). }
  (* the prompt cell *)
  assert (Forall2 (λ rr text, getpath rr [Key "content"; Key "text"] = Ok text)
            results (PStr <$> texts)) as Hf'.
  { clear -Hf. induction Hf; constructor; done. }
  set (w2 := World (<["contexts" := PList (PStr <$> texts)]>
                      (<["user_prompt_template" := PStr user_prompt_template]>
                         (<["system_prompt" := PStr system_prompt]> (globals w1))))
                   (service w) (calls w ++ [asked]) (stdout w1)).
  assert (cell_prompts w1 = (Ok (), w2)) as Hp.
  { rewrite cell_prompts_run. cbv zeta. subst w1. cbn [globals service calls stdout].
    rewrite lookup_insert_eq.
    by rewrite (contexts_texts reply results (PStr <$> texts)). }
  (* the Converse cell *)
  assert (globals w2 !! "system_prompt" = Some (PStr system_prompt)) as G1.
  { subst w2. cbn [globals]. rewrite !lookup_insert_ne by done.
    by rewrite lookup_insert_eq. }
  assert (globals w2 !! "user_prompt_template" = Some (PStr user_prompt_template)) as G2.
  { subst w2. cbn [globals]. rewrite lookup_insert_ne by done.
    by rewrite lookup_insert_eq. }
  assert (globals w2 !! "contexts" = Some (PList (PStr <$> texts))) as G3.
  { subst w2. cbn [globals]. by rewrite lookup_insert_eq. }
  assert (globals w2 !! "user_query" = Some (PStr question)) as G4.
  { subst w2 w1. cbn [globals]. rewrite !lookup_insert_ne by done.
    by rewrite lookup_insert_eq. }
  assert (globals w2 !! "model_id" = Some m) as G5.
  { subst w2 w1. cbn [globals]. by rewrite !lookup_insert_ne. }
  pose proof (user_prompt_ok texts question) as G6.
  assert (notebook json_dumps question w = cell_generate w2) as Hn.
  { unfold notebook, mbind, Nb_bind. by rewrite Hq, Hp. }
  unfold issued. rewrite !Hn. split.
  { rewrite (cell_generate_calls w2 _ _ _ _ m _ G1 G2 G3 G4 G5 G6).
    subst w2. cbn [calls]. by rewrite <- app_assoc, drop_app_length. }
  intros answer text Ha Ht.
  rewrite (cell_generate_run w2 _ _ _ _ m _ G1 G2 G3 G4 G5 G6). cbv zeta.
  change (calls w2) with (calls w ++ [asked]). change (service w2) with (service w).
  fold generated. rewrite Ha. unfold answer_path in Ht. rewrite Ht.
  rewrite (print_run _ ["Final Answer:" +:+ nl; text]) by done.
  split; [done|]. cbn [snd stdout String.concat]. subst w2 w1. cbn [stdout].
  by rewrite !append_assoc.
Qed.

Lemma notebook_run_witness :
  let run := notebook (λ _, Ok "[...]") "What is Amazon doing in AI?" in
  issued run sample_world
  = [ retrieve_call (PStr "What is Amazon doing in AI?") (PStr "KB12345678")
        (Some (PInt 3));
      converse_call (PStr model_id) (PStr system_prompt)
        (user_prompt ["Amazon AI chips"; "Bedrock and CodeWhisperer"]
           "What is Amazon doing in AI?") ]
  ∧ (run sample_world).1 = Ok ()
  ∧ stdout (run sample_world).2
    = "Retrieval Results:
 [...]
Final Answer:
 Chips and Bedrock.
".
Proof.
  intros run.
  edestruct (notebook_run (λ _, Ok "[...]") "What is Amazon doing in AI?"
               sample_world (PStr "KB12345678") (PStr model_id) sample_results
               [ PDict [ ("content", PDict [("text", PStr "Amazon AI chips");
                                            ("type", PStr "TEXT")]);
                         ("location", PDict [("type", PStr "S3")]);
                         ("score", PFloat 0.5) ];
                 PDict [ ("content", PDict [("text", PStr "Bedrock and CodeWhisperer");
                                            ("type", PStr "TEXT")]);
                         ("location", PDict [("type", PStr "S3")]);
                         ("score", PFloat 0.25) ] ]
               ["Amazon AI chips"; "Bedrock and CodeWhisperer"] "[...]")
    as [Hi Hrun];
    [reflexivity | reflexivity | reflexivity | reflexivity
    | repeat constructor | reflexivity |].
  split; [exact Hi|].
  apply (Hrun sample_answer "Chips and Bedrock."); reflexivity.
Defined.

(** X2.  When nothing was retrieved, the prompt cell binds [contexts] to
    the empty list and the Converse request is still sent, with [[]]
    between the context tags. *)
Theorem empty_retrieval_still_generates w response q m :
  globals w !! "response" = Some response →
  getitem_key response "retrievalResults" = Ok (PList []) →
  globals w !! "user_query" = Some (PStr q) →
  globals w !! "model_id" = Some m →
  globals (cell_prompts w).2 !! "contexts" = Some (PList [])
  ∧ issued rag_answer w =
      [converse_call m (PStr system_prompt)
         ("Here is some additional context:
<context>
[]
</context>

Please provide an answer to this user query:
<query>
" +:+ q +:+ "
</query>

The response should be specific and use statistics or numbers when possible.")].
Proof.
  intros Hr Hres Hq Hm.
  assert (contexts response = Ok []) as Hc
    by (by apply (contexts_texts response [] [])).
  pose proof (cell_prompts_run w) as Hp. cbv zeta in Hp. rewrite Hr, Hc in Hp.
  rewrite Hp. cbn [snd globals]. split; [by rewrite lookup_insert_eq|].
  unfold issued, rag_answer, mbind, Nb_bind. rewrite Hp.
  erewrite (cell_generate_calls _ (PStr system_prompt) user_prompt_template
              (PList (PStr <$> [])) (PStr q) m); cbn [globals calls].
  - by rewrite drop_app_length.
  - rewrite !lookup_insert_ne by done. by rewrite lookup_insert_eq.
  - rewrite lookup_insert_ne by done. by rewrite lookup_insert_eq.
  - by rewrite lookup_insert_eq.
  - by rewrite !lookup_insert_ne.
  - by rewrite !lookup_insert_ne.
  - apply (user_prompt_ok [] q).
Qed.

Lemma empty_retrieval_still_generates_witness :
  globals (cell_prompts other_world).2 !! "contexts" = Some (PList [])
  ∧ ∃ c, issued rag_answer other_world = [c]
         ∧ dict_get (kwargs c) "modelId" = Some (PStr model_id).
Proof.
  edestruct (empty_retrieval_still_generates other_world
               (PDict [("retrievalResults", PList [])])
               "How many employees?" (PStr model_id))
    as [Hc Hi]; [reflexivity..|].
  split; [exact Hc|]. eexists. split; [exact Hi|]. reflexivity.
Defined.

End RagRunFacts.

(* ===================================================================== *)
(** * Further properties of [dp_transform] *)
(* ===================================================================== *)

Module SubsampleFacts.
Import Py PyFacts FineTune FineTuneFacts LoopFacts.

Section Subsample.
Context {G : Type} `{!RandomGen G}.

(** X8.  On records that can be measured, [dp_transform] returns records
    of its input only, none more often than the input holds it: nothing is
    invented and nothing is duplicated. *)
Theorem dp_transform_from_input
    (data_points : list pyval) (num_dps max_dp_length : Z) (g : G) :
  Forall measurable data_points →
  ∃ out, (dp_transform data_points num_dps max_dp_length g).1 = Ok out
         ∧ out ⊆+ data_points.
Proof.
  intros Hm.
  destruct (dp_transform_spec data_points num_dps max_dp_length g Hm)
    as (lines & -> & Hp).
  eexists. split; [done|].
  etrans; [apply sublist_submseteq, slice_to_sublist|].
  rewrite Hp. apply sublist_submseteq, filter_sublist.
Qed.

(** X9.  At the first record of the input whose combined length cannot be
    taken (a key or a message is missing, a text is not a string),
    [dp_transform] raises the error of that record; the records after it
    are not looked at and the generator is not used. *)
Theorem dp_transform_raises
    (before after : list pyval) (dp : pyval) (e : exn)
    (num_dps max_dp_length : Z) (g : G) :
  Forall measurable before →
  dp_length dp = Raise e →
  dp_transform (before ++ dp :: after) num_dps max_dp_length g = (Raise e, g).
Proof.
  intros Hm He.
  assert (∀ acc, keep max_dp_length acc dp = Raise e) as Hk
    by (intros acc; unfold keep; by rewrite He).
  unfold dp_transform. rewrite for_each_app.
  rewrite (keep_loop max_dp_length before []) by done.
  cbn [mbind outcome_bind for_each]. by rewrite Hk.
Qed.

(** X10.  When the requested count is at least the number of records that
    pass the length filter, nothing is cut off: the result holds exactly
    the passing records, in some order. *)
Theorem dp_transform_keeps_all
    (data_points : list pyval) (num_dps max_dp_length : Z) (g : G) :
  Forall measurable data_points →
  Z.of_nat (length (List.filter (passes max_dp_length) data_points)) ≤ num_dps →
  ∃ out, (dp_transform data_points num_dps max_dp_length g).1 = Ok out
         ∧ out ≡ₚ List.filter (passes max_dp_length) data_points.
Proof.
  intros Hm Hn.
  destruct (dp_transform_spec data_points num_dps max_dp_length g Hm)
    as (lines & -> & Hp).
  eexists. split; [done|]. by rewrite slice_to_all by (by rewrite Hp).
Qed.

(** X11.  A negative count is not rejected: the slice [lines[:num_dps]]
    then drops [-num_dps] records from the end of the shuffled list, so
    the result has as many records as pass the filter less [-num_dps], and
    none when that is below zero. *)
Theorem dp_transform_negative
    (data_points : list pyval) (num_dps max_dp_length : Z) (g : G) :
  Forall measurable data_points →
  num_dps < 0 →
  ∃ out, (dp_transform data_points num_dps max_dp_length g).1 = Ok out
         ∧ Z.of_nat (length out)
           = Z.max 0 (Z.of_nat (length (List.filter (passes max_dp_length)
                                          data_points)) + num_dps).
Proof.
  intros Hm Hn.
  destruct (dp_transform_spec data_points num_dps max_dp_length g Hm)
    as (lines & -> & Hp).
  eexists. split; [done|]. unfold slice_to.
  destruct (Z.ltb_spec num_dps 0); [|lia].
  rewrite length_take, <- Hp. lia.
Qed.

(** X12.  Running [dp_transform] on its own result, with a limit that is
    not smaller and a count that covers the result, loses nothing: the
    second result holds the same records, in some order. *)
Theorem dp_transform_again
    (data_points : list pyval) (num_dps max_dp_length : Z) (g g' : G)
    (out : list pyval) (num_dps' max_dp_length' : Z) :
  Forall measurable data_points →
  (dp_transform data_points num_dps max_dp_length g).1 = Ok out →
  max_dp_length ≤ max_dp_length' →
  Z.of_nat (length out) ≤ num_dps' →
  ∃ out', (dp_transform out num_dps' max_dp_length' g').1 = Ok out'
          ∧ out' ≡ₚ out.
Proof.
  intros Hm Hout HL Hn.
  destruct (dp_transform_spec data_points num_dps max_dp_length g Hm)
    as (lines & Hout' & Hp).
  rewrite Hout in Hout'. simplify_eq.
  assert (Forall (λ dp, passes max_dp_length dp = true) (slice_to lines num_dps))
    as Hpass.
  { destruct (slice_to_take lines num_dps) as [k ->]. apply Forall_take.
    rewrite Hp. apply filter_passing. }
  assert (Forall (λ dp, passes max_dp_length' dp = true) (slice_to lines num_dps))
    as Hpass'.
  { eapply Forall_impl; [exact Hpass|]. intros dp. unfold passes.
    destruct (dp_length dp); [|done..]. intros ?%Z.leb_le. apply Z.leb_le. lia. }
  pose proof (filter_all _ _ Hpass') as Hid.
  destruct (dp_transform_spec (slice_to lines num_dps) num_dps' max_dp_length' g')
    as (lines' & Hout' & Hp').
  { eapply Forall_impl; [exact Hpass|]. intros dp Hd.
    apply passes_within in Hd as (k & ? & _). by exists k. }
  rewrite Hid in Hp'.
  exists (slice_to lines' num_dps'). split; [done|].
  by rewrite slice_to_all by (by rewrite Hp').
Qed.

(** X13.  With at most one record passing the filter there is nothing to
    shuffle: the result is the slice of the filtered list itself and the
    generator is left as it was. *)
Theorem dp_transform_no_draw
    (data_points : list pyval) (num_dps max_dp_length : Z) (g : G) :
  Forall measurable data_points →
  (length (List.filter (passes max_dp_length) data_points) ≤ 1)%nat →
  dp_transform data_points num_dps max_dp_length g
  = (Ok (slice_to (List.filter (passes max_dp_length) data_points) num_dps), g).
Proof.
  intros Hm Hl. unfold dp_transform. rewrite (keep_loop _ _ []) by done.
  cbn [app]. unfold shuffle.
  destruct (List.filter _ _) as [|x [|y l]]; [done..|]. simpl in Hl. lia.
Qed.
End Subsample.

(** ** The theorems at the sample data *)

Lemma dp_transform_from_input_witness :
  ∃ out, (dp_transform sample 2 5 (seed (G:=N) 1)).1 = Ok out ∧ out ⊆+ sample.
Proof. apply (dp_transform_from_input sample 2 5 (seed 1)). sample_measurable. Defined.

Lemma dp_transform_raises_witness :
  dp_transform [ record "s" "hi" "ok"; PDict [("system", PStr "s")];
                 record "x" "y" "z" ] 2 5 (seed (G:=N) 1)
  = (Raise (KeyError (PStr "messages")), seed 1).
Proof.
  apply (dp_transform_raises [record "s" "hi" "ok"] [record "x" "y" "z"]
           (PDict [("system", PStr "s")]) (KeyError (PStr "messages"))
           2 5 (seed (G:=N) 1)).
  - sample_measurable.
  - reflexivity.
Defined.

Lemma dp_transform_keeps_all_witness :
  ∃ out, (dp_transform sample 4 5 (seed (G:=N) 1)).1 = Ok out
         ∧ out ≡ₚ [ record "s" "hi" "ok"; record "" "a" "b";
                    record "x" "y" "z"; record "p" "q" "rr" ].
Proof.
  apply (dp_transform_keeps_all sample 4 5 (seed 1)).
  - sample_measurable.
  - vm_compute. discriminate.
Defined.

Lemma dp_transform_negative_witness :
  ∃ out, (dp_transform sample (-3) 5 (seed (G:=N) 1)).1 = Ok out
         ∧ Z.of_nat (length out) = 1.
Proof.
  apply (dp_transform_negative sample (-3) 5 (seed 1)).
  - sample_measurable.
  - lia.
Defined.

Lemma dp_transform_again_witness :
  let out := [record "" "a" "b"; record "p" "q" "rr"] in
  (dp_transform sample 2 5 (seed (G:=N) 1)).1 = Ok out
  ∧ ∃ out', (dp_transform out 2 100 (seed (G:=N) 7)).1 = Ok out' ∧ out' ≡ₚ out.
Proof.
  intros out. split; [vm_compute; reflexivity|].
  apply (dp_transform_again (G:=N) sample 2 5 (seed 1) (seed 7) out 2 100).
  - sample_measurable.
  - vm_compute. reflexivity.
  - lia.
  - vm_compute. discriminate.
Defined.

Lemma dp_transform_no_draw_witness :
  dp_transform [record "s" "hi" "ok"; record "s" "hello there" "ok"] 3 5
               (seed (G:=N) 1)
  = (Ok [record "s" "hi" "ok"], seed 1).
Proof.
  apply (dp_transform_no_draw
           [record "s" "hi" "ok"; record "s" "hello there" "ok"] 3 5
           (seed (G:=N) 1)).
  - sample_measurable.
  - vm_compute. lia.
Defined.

End SubsampleFacts.

(* ===================================================================== *)
(** * The JSON text of a value *)
(* ===================================================================== *)

Module JsonFacts.
Import Py PyFacts Rag Json.

(** Induction over values, with the items of lists and dicts covered. *)
Lemma pyval_nested_ind (P : pyval → Prop) :
  P PNone → (∀ b, P (PBool b)) → (∀ z, P (PInt z)) → (∀ f, P (PFloat f)) →
  (∀ s, P (PStr s)) →
  (∀ l, Forall P l → P (PList l)) →
  (∀ d, Forall (λ kv, P kv.2) d → P (PDict d)) →
  ∀ v, P v.
Proof.
  intros HN HB HI HF HS HL HD.
  fix IH 1. intros [| b | z | f | s | l | d]; [done..| |].
  - apply HL. induction l as [|x l IHl]; constructor; [apply IH | exact IHl].
  - apply HD. induction d as [|[key x] d IHd]; constructor; [apply IH | exact IHd].
Qed.

Lemma line_breaks_app s t : line_breaks (s +:+ t) = (line_breaks s + line_breaks t)%nat.
Proof.
  unfold line_breaks. induction s as [|c s IH]; [done|].
  rewrite append_cons. cbn [list_ascii_of_string List.filter].
  destruct (Ascii.eqb "010" c); cbn [length]; by rewrite IH.
Qed.

Lemma line_breaks_concat sep l :
  line_breaks sep = 0%nat → Forall (λ s, line_breaks s = 0%nat) l →
  line_breaks (String.concat sep l) = 0%nat.
Proof.
  intros Hsep Hl. induction Hl as [|s l Hs Hl IH]; [done|].
  destruct l as [|s' l']; [done|].
  change (String.concat sep (s :: s' :: l'))
    with (s +:+ sep +:+ String.concat sep (s' :: l')).
  rewrite !line_breaks_app, Hs, Hsep, IH. done.
Qed.

Lemma json_char_no_break c : line_breaks (json_char c) = 0%nat.
Proof.
  destruct c as [[] [] [] [] [] [] [] []]; reflexivity.
Qed.

Lemma json_str_no_break s : line_breaks (json_str s) = 0%nat.
Proof.
  unfold json_str. change (String dquote ?x) with (String dquote "" +:+ x).
  rewrite !line_breaks_app.
  rewrite line_breaks_concat; [done|done|].
  induction s as [|c s IH]; constructor; [apply json_char_no_break | exact IH].
Qed.

Lemma pretty_N_go_no_break (x : N) s :
  line_breaks s = 0%nat → line_breaks (pretty_N_go x s) = 0%nat.
Proof.
  revert s. induction (N.lt_wf_0 x) as [x _ IH]; intros s Hs.
  destruct (decide (x = 0)%N) as [->|Hx]; [by rewrite pretty_N_go_0|].
  rewrite pretty_N_go_step by lia. apply IH.
  - apply N.div_lt; lia.
  - change (String ?c s) with (String c "" +:+ s). rewrite line_breaks_app, Hs.
    unfold pretty_N_char. by repeat case_match.
Qed.

Lemma pretty_Z_no_break (z : Z) : line_breaks (pretty z) = 0%nat.
Proof.
  unfold pretty, pretty_Z. destruct z as [|p|p]; [done| |].
  - unfold pretty, pretty_positive, pretty, pretty_N.
    case_decide; [done|]. by apply pretty_N_go_no_break.
  - rewrite line_breaks_app. unfold pretty, pretty_positive, pretty, pretty_N.
    case_decide; [done|]. by rewrite pretty_N_go_no_break.
Qed.

(** The JSON text of a value has no line break in it. *)
Lemma json_encode_no_break v text :
  json_encode v = Some text → line_breaks text = 0%nat.
Proof.
  revert text. induction v as [| b | z | f | s | l IH | d IH] using pyval_nested_ind;
    intros text Ht; cbn [json_encode] in Ht.
  - by simplify_eq.
  - destruct b; by simplify_eq.
  - simplify_eq. apply pretty_Z_no_break.
  - done.
  - simplify_eq. apply json_str_no_break.
  - destruct (mapM json_encode l) as [items|] eqn:Hm; [|done].
    cbn in Ht. simplify_eq. rewrite !line_breaks_app.
    rewrite line_breaks_concat; [done|done|].
    apply mapM_Some in Hm. clear -IH Hm.
    induction Hm as [|x t l items Hx _ IHm]; [done|].
    apply Forall_cons in IH as [IHx IHl]. constructor; [by apply IHx | by apply IHm].
  - destruct (mapM _ d) as [items|] eqn:Hm; [|done].
    cbn in Ht. simplify_eq. rewrite !line_breaks_app.
    rewrite line_breaks_concat; [done|done|].
    apply mapM_Some in Hm. clear -IH Hm.
    induction Hm as [|[key x] t d items Hx _ IHm]; [done|].
    apply Forall_cons in IH as [IHx IHd]. constructor; [|by apply IHm].
    cbn in Hx. destruct (json_encode x) as [r|] eqn:Hr; [|done].
    cbn in Hx. simplify_eq. rewrite !line_breaks_app, json_str_no_break.
    by rewrite (IHx r).
Qed.

End JsonFacts.

(* ===================================================================== *)
(** * The data preparation notebook *)
(* ===================================================================== *)

Module DataPrepFacts.
Import Py PyFacts Rag FineTune FineTuneFacts Json JsonFacts DataPrep LoopFacts.

Ltac run_cell :=
  unfold mbind, Cell_bind, read, bind_name, pure;
  cbn [names random files refused s3 requests output].

Section Facts.
Context {G : Type} `{!RandomGen G}.
Implicit Types k : kernel G.

Lemma same_except_refl xs k : same_except xs k k.
Proof. by repeat split. Qed.

Lemma same_except_trans xs k1 k2 k3 :
  same_except xs k1 k2 → same_except xs k2 k3 → same_except xs k1 k3.
Proof.
  intros (?&?&?&?&?&?&H12) (?&?&?&?&?&?&H23).
  repeat split; try congruence. intros x Hx. by rewrite H23, H12.
Qed.

Lemma same_except_bind xs x v k :
  x ∈ xs →
  same_except xs k (Kernel (<[x := v]> (names k)) (random k) (files k)
                           (refused k) (s3 k) (requests k) (output k)).
Proof.
  intros Hx. repeat split; try done. intros y Hy. cbn [names].
  apply lookup_insert_ne. intros ->. done.
Qed.

(** One row: when [temp_dict] gives a record for it, the loop body ends
    with that record appended. *)
Lemma process_row_ok target row t items k :
  texts_bound k →
  names k !! target = Some (PList items) →
  target ∉ ["dp"; "temp_dict"; "system_string"; "instruction"] →
  temp_dict row = Ok t →
  ∃ k', process_row target row k = (Ok (), k')
        ∧ names k' !! target = Some (PList (items ++ [t]))
        ∧ same_except ["dp"; "temp_dict"; target] k k'.
Proof.
  intros [Hsys Hins] Htarget Hfresh Ht.
  assert (target ≠ "dp" ∧ target ≠ "temp_dict" ∧ target ≠ "system_string"
          ∧ target ≠ "instruction") as (? & ? & ? & ?).
  { repeat split; intros ->; apply Hfresh; names_in. }
  unfold temp_dict in Ht.
  destruct (getitem_key row "dialogue") as [dialogue| |] eqn:Hd; [|done..].
  cbn [mbind outcome_bind] in Ht.
  destruct (py_add (PStr instruction) dialogue) as [user| |] eqn:Hu; [|done..].
  cbn [mbind outcome_bind] in Ht.
  destruct (getitem_key row "summary") as [summary| |] eqn:Hs; [|done..].
  cbn [mbind outcome_bind] in Ht. simplify_eq.
  eexists. split.
  { unfold process_row, setitem, append_method. run_cell.
    look. rewrite Hsys. look. cbn [dict_set]. run_cell.
    look. rewrite Hins. look. rewrite Hd, Hu, Hs. look.
    cbn [dict_set String.eqb Ascii.eqb Bool.eqb]. run_cell.
    look. rewrite Htarget. look. reflexivity. }
  cbn [names]. split; [by rewrite lookup_insert_eq|].
  repeat split; try done. intros x Hx. cbn [names].
  rewrite !lookup_insert_ne; [done|..]; intros <-; apply Hx; names_in.
Qed.

(** One row: when [temp_dict] raises, the loop body raises the same and
    the list is as it was. *)
Lemma process_row_raise target row e items k :
  texts_bound k →
  names k !! target = Some (PList items) →
  target ∉ ["dp"; "temp_dict"; "system_string"; "instruction"] →
  temp_dict row = Raise e →
  ∃ k', process_row target row k = (Raise e, k')
        ∧ names k' !! target = Some (PList items)
        ∧ names k' !! "dp" = Some row
        ∧ same_except ["dp"; "temp_dict"; target] k k'.
Proof.
  intros [Hsys Hins] Htarget Hfresh Ht.
  assert (target ≠ "dp" ∧ target ≠ "temp_dict" ∧ target ≠ "system_string"
          ∧ target ≠ "instruction") as (? & ? & ? & ?).
  { repeat split; intros ->; apply Hfresh; names_in. }
  assert (∀ v w, same_except ["dp"; "temp_dict"; target] k
            (Kernel (<["temp_dict" := v]> (<["temp_dict" := w]>
                       (<["dp" := row]> (names k))))
                    (random k) (files k) (refused k) (s3 k) (requests k)
                    (output k))) as Hsame.
  { intros v w. repeat split; try done. intros x Hx. cbn [names].
    rewrite !lookup_insert_ne; [done|..]; intros <-; apply Hx; names_in. }
  unfold temp_dict in Ht.
  eexists. split; [|split; [|split; [|apply Hsame]]].
  - unfold process_row, setitem, append_method. run_cell.
    look. rewrite Hsys. look. cbn [dict_set]. run_cell.
    look. rewrite Hins. look.
    destruct (getitem_key row "dialogue") as [dialogue| |]; [|by simplify_eq/=..].
    cbn [mbind outcome_bind] in Ht.
    destruct (py_add (PStr instruction) dialogue) as [user| |];
      [|by simplify_eq/=..].
    cbn [mbind outcome_bind] in Ht.
    destruct (getitem_key row "summary") as [summary| |]; by simplify_eq/=.
  - cbn [names]. by look.
  - cbn [names]. by look.
Qed.

Lemma texts_bound_same target k k' :
  target ∉ ["dp"; "temp_dict"; "system_string"; "instruction"] →
  same_except ["dp"; "temp_dict"; target] k k' →
  texts_bound k → texts_bound k'.
Proof.
  intros Hfresh (_&_&_&_&_&_&Hn) [Hsys Hins].
  split; rewrite Hn; try done; names_in.
Qed.

(** The loop: the records of the rows are appended in the order of the
    rows. *)
Lemma process_rows_ok target rows ts items k :
  texts_bound k →
  names k !! target = Some (PList items) →
  target ∉ ["dp"; "temp_dict"; "system_string"; "instruction"] →
  Forall2 (λ row t, temp_dict row = Ok t) rows ts →
  ∃ k', for_rows (process_row target) rows k = (Ok (), k')
        ∧ names k' !! target = Some (PList (items ++ ts))
        ∧ same_except ["dp"; "temp_dict"; target] k k'.
Proof.
  intros Hb Ht Hfresh Hf. revert items k Hb Ht.
  induction Hf as [|row t rows ts Hrow _ IH]; intros items k Hb Ht.
  { exists k. rewrite app_nil_r. split; [done|]. split; [done|].
    apply same_except_refl. }
  destruct (process_row_ok target row t items k Hb Ht Hfresh Hrow)
    as (k1 & Hrun & Ht1 & Hs1).
  destruct (IH (items ++ [t]) k1) as (k2 & Hrun2 & Ht2 & Hs2);
    [by eapply texts_bound_same | done |].
  exists k2. split.
  { cbn [for_rows]. unfold mbind at 1, Cell_bind. by rewrite Hrun. }
  split; [by rewrite <- app_assoc in Ht2|]. by eapply same_except_trans.
Qed.

Lemma process_rows_raise target good bad rest ts e items k :
  texts_bound k →
  names k !! target = Some (PList items) →
  target ∉ ["dp"; "temp_dict"; "system_string"; "instruction"] →
  Forall2 (λ row t, temp_dict row = Ok t) good ts →
  temp_dict bad = Raise e →
  ∃ k', for_rows (process_row target) (good ++ bad :: rest) k = (Raise e, k')
        ∧ names k' !! target = Some (PList (items ++ ts))
        ∧ names k' !! "dp" = Some bad
        ∧ same_except ["dp"; "temp_dict"; target] k k'.
Proof.
  intros Hb Ht Hfresh Hf Hbad. revert items k Hb Ht.
  induction Hf as [|row t rows ts Hrow _ IH]; intros items k Hb Ht.
  { destruct (process_row_raise target bad e items k Hb Ht Hfresh Hbad)
      as (k1 & Hrun & Ht1 & Hdp1 & Hs1).
    exists k1. rewrite app_nil_r. split; [|done].
    cbn [app for_rows]. unfold mbind at 1, Cell_bind. by rewrite Hrun. }
  destruct (process_row_ok target row t items k Hb Ht Hfresh Hrow)
    as (k1 & Hrun & Ht1 & Hs1).
  destruct (IH (items ++ [t]) k1) as (k2 & Hrun2 & Ht2 & Hdp2 & Hs2);
    [by eapply texts_bound_same | done |].
  exists k2. split.
  { cbn [app for_rows]. unfold mbind at 1, Cell_bind. by rewrite Hrun. }
  split; [by rewrite <- app_assoc in Ht2|]. split; [done|].
  by eapply same_except_trans.
Qed.

(** A processing cell on rows that all give a record. *)
Lemma cell_datapoints_run split target dataset rows ts k :
  texts_bound k →
  names k !! "dataset" = Some dataset →
  getitem_key dataset split = Ok (PList rows) →
  target ∉ ["dp"; "temp_dict"; "system_string"; "instruction"; "dataset"] →
  Forall2 (λ row t, temp_dict row = Ok t) rows ts →
  ∃ k', cell_datapoints split target k = (Ok (), k')
        ∧ names k' !! target = Some (PList ts)
        ∧ same_except ["dp"; "temp_dict"; target] k k'.
Proof.
  intros Hb Hd Hrows Hfresh Hf.
  assert (target ≠ "dataset" ∧ target ≠ "system_string"
          ∧ target ≠ "instruction") as (? & ? & ?).
  { repeat split; intros ->; apply Hfresh; names_in. }
  set (k0 := Kernel (<[target := PList []]> (names k)) (random k) (files k)
                    (refused k) (s3 k) (requests k) (output k)).
  destruct (process_rows_ok target rows ts [] k0) as (k1 & Hrun & Ht & Hs).
  { destruct Hb as [Hsys Hins]. split; unfold k0; cbn [names]; by look. }
  { unfold k0. cbn [names]. by look. }
  { names_in. }
  { done. }
  exists k1. split; [|split; [done|]].
  { unfold cell_datapoints. run_cell. look. rewrite Hd, Hrows. cbn [py_iter].
    exact Hrun. }
  eapply same_except_trans; [|exact Hs]. apply same_except_bind. names_in.
Qed.

(** X14.  A processing cell (training, validation or test) on a split
    whose rows all have a dialogue and a summary that can be joined: it
    ends normally, its list holds one record for each row, in the order of
    the rows, and besides that list only the loop names [dp] and
    [temp_dict] are bound; no file, request or output. *)
Theorem cell_datapoints_builds split target dataset rows ts k :
  texts_bound k →
  names k !! "dataset" = Some dataset →
  getitem_key dataset split = Ok (PList rows) →
  target ∉ ["dp"; "temp_dict"; "system_string"; "instruction"; "dataset"] →
  Forall2 (λ row t, temp_dict row = Ok t) rows ts →
  let k' := (cell_datapoints split target k).2 in
  (cell_datapoints split target k).1 = Ok ()
  ∧ names k' !! target = Some (PList ts)
  ∧ same_except ["dp"; "temp_dict"; target] k k'.
Proof.
  intros Hb Hd Hrows Hfresh Hf k'. subst k'.
  by destruct (cell_datapoints_run split target dataset rows ts k)
    as (k1 & -> & Ht & Hs).
Qed.

(** X15.  At the first row without a dialogue or a summary the processing
    cell raises the error of that row.  The list then holds the records of
    the rows before it, and [dp] names the failing row; the cell does not
    start over or skip the row. *)
Theorem cell_datapoints_stops split target dataset good bad rest ts e k :
  texts_bound k →
  names k !! "dataset" = Some dataset →
  getitem_key dataset split = Ok (PList (good ++ bad :: rest)) →
  target ∉ ["dp"; "temp_dict"; "system_string"; "instruction"; "dataset"] →
  Forall2 (λ row t, temp_dict row = Ok t) good ts →
  temp_dict bad = Raise e →
  let k' := (cell_datapoints split target k).2 in
  (cell_datapoints split target k).1 = Raise e
  ∧ names k' !! target = Some (PList ts)
  ∧ names k' !! "dp" = Some bad.
Proof.
  intros Hb Hd Hrows Hfresh Hf Hbad k'. subst k'.
  assert (target ≠ "dataset" ∧ target ≠ "system_string"
          ∧ target ≠ "instruction") as (? & ? & ?).
  { repeat split; intros ->; apply Hfresh; names_in. }
  set (k0 := Kernel (<[target := PList []]> (names k)) (random k) (files k)
                    (refused k) (s3 k) (requests k) (output k)).
  destruct (process_rows_raise target good bad rest ts e [] k0)
    as (k1 & Hrun & Ht & Hdp & Hs).
  { destruct Hb as [Hsys Hins]. split; unfold k0; cbn [names]; by look. }
  { unfold k0. cbn [names]. by look. }
  { names_in. }
  { done. }
  { done. }
  assert (cell_datapoints split target k = (Raise e, k1)) as ->.
  { unfold cell_datapoints. run_cell. look. rewrite Hd, Hrows. cbn [py_iter].
    exact Hrun. }
  done.
Qed.

(** X16.  A processing cell starts from an empty list: running it a
    second time gives the same list again, not a list with every record
    twice. *)
Theorem cell_datapoints_again split target dataset rows ts k :
  texts_bound k →
  names k !! "dataset" = Some dataset →
  getitem_key dataset split = Ok (PList rows) →
  target ∉ ["dp"; "temp_dict"; "system_string"; "instruction"; "dataset"] →
  Forall2 (λ row t, temp_dict row = Ok t) rows ts →
  let twice := cell_datapoints split target;; cell_datapoints split target in
  (twice k).1 = Ok ()
  ∧ names (twice k).2 !! target = Some (PList ts)
  ∧ names (twice k).2 !! target
    = names (cell_datapoints split target k).2 !! target.
Proof.
  intros Hb Hd Hrows Hfresh Hf twice.
  destruct (cell_datapoints_run split target dataset rows ts k)
    as (k1 & Hrun & Ht & Hs); [done..|].
  destruct (cell_datapoints_run split target dataset rows ts k1)
    as (k2 & Hrun2 & Ht2 & Hs2); try done.
  { eapply texts_bound_same; [|exact Hs|exact Hb]. names_in. }
  { destruct Hs as (_&_&_&_&_&_&Hn). rewrite Hn; [done|]. names_in. }
  subst twice. unfold mbind, Cell_bind. rewrite Hrun, Hrun2.
  cbn [fst snd]. by rewrite Ht2, Ht.
Qed.

(** The record built for a row with a dialogue and a summary. *)
Lemma temp_dict_row row ds : row_texts row ds → temp_dict row = Ok (built ds).
Proof. intros [Hd Hs]. unfold temp_dict. by rewrite Hd, Hs. Qed.

Lemma temp_dict_rows rows pairs :
  Forall2 row_texts rows pairs →
  Forall2 (λ row t, temp_dict row = Ok t) rows (built <$> pairs).
Proof.
  induction 1 as [|row ds rows pairs Hrow _ IH]; constructor;
    [by apply temp_dict_row | exact IH].
Qed.


Lemma dp_length_record sys user assistant :
  dp_length (record sys user assistant)
  = Ok (Z.of_nat (String.length sys + String.length user
                  + String.length assistant)).
Proof.
  unfold dp_length, record.
  cbv -[String.append String.length Z.of_nat Nat.add]. by rewrite !length_append.
Qed.

(** The combined length of a built record: the two fixed texts take 221
    characters. *)
Lemma dp_length_built (ds : string * string) :
  dp_length (built ds)
  = Ok (221 + Z.of_nat (String.length ds.1) + Z.of_nat (String.length ds.2)).
Proof.
  unfold built. rewrite dp_length_record, length_append. f_equal.
  change (String.length system_string) with 156%nat.
  change (String.length instruction) with 65%nat. lia.
Qed.

(** X17.  The record built from a dialogue and a summary has the combined
    length of the two plus 221, the length of the system text and of the
    instruction; it passes a limit exactly when dialogue and summary
    together have at most the limit less 221 characters. *)
Theorem built_passes (ds : string * string) (max_dp_length : Z) :
  dp_length (built ds)
    = Ok (221 + Z.of_nat (String.length ds.1) + Z.of_nat (String.length ds.2))
  ∧ passes max_dp_length (built ds)
    = (Z.of_nat (String.length ds.1) + Z.of_nat (String.length ds.2)
       <=? max_dp_length - 221).
Proof.
  split; [apply dp_length_built|]. unfold passes. rewrite dp_length_built.
  apply eq_true_iff_eq. rewrite !Z.leb_le. lia.
Qed.

Lemma built_measurable pairs : Forall measurable (built <$> pairs).
Proof.
  apply Forall_fmap, Forall_forall. intros ds _.
  eexists. apply dp_length_built.
Qed.


(** A call of [dp_transform] on a list of measurable records. *)
Lemma call_dp_transform_ok rows count limit k :
  Forall measurable rows →
  ∃ out g,
    call_dp_transform (PList rows) count limit k
    = (Ok (PList out),
       Kernel (names k) g (files k) (refused k) (s3 k) (requests k) (output k))
    ∧ (0 ≤ count → subsample rows count limit out).
Proof.
  intros Hm.
  destruct (dp_transform_spec rows count limit (random k) Hm)
    as (lines & Hout & Hp).
  unfold call_dp_transform. cbn [py_iter].
  destruct (dp_transform rows count limit (random k)) as [result g].
  cbn [fst] in Hout. subst result.
  exists (slice_to lines count), g. split; [done|].
  intros Hc. split; [|split].
  - destruct (slice_to_take lines count) as [n ->].
    etrans; [apply sublist_submseteq, sublist_take|].
    rewrite Hp. apply sublist_submseteq, filter_sublist.
  - destruct (slice_to_take lines count) as [n ->]. apply Forall_take.
    rewrite Hp. apply filter_passing.
  - rewrite slice_to_length by done. by rewrite Hp.
Qed.

(** The split cell on three lists of measurable records. *)
Lemma cell_split_run tr va te k :
  names k !! "datapoints_train" = Some (PList tr) →
  names k !! "datapoints_valid" = Some (PList va) →
  names k !! "datapoints_test" = Some (PList te) →
  Forall measurable tr → Forall measurable va → Forall measurable te →
  ∃ train validation test g,
    cell_split k
    = (Ok (), Kernel (<["test" := PList test]>
                        (<["validation" := PList validation]>
                           (<["train" := PList train]> (names k))))
                     g (files k) (refused k) (s3 k) (requests k) (output k))
    ∧ subsample tr 1000 20000 train
    ∧ subsample va 100 20000 validation
    ∧ subsample te 10 20000 test.
Proof.
  intros Htr Hva Hte Mtr Mva Mte.
  unfold cell_split. unfold mbind at 1, Cell_bind at 1, read at 1. rewrite Htr.
  unfold mbind at 1, Cell_bind at 1.
  destruct (call_dp_transform_ok tr 1000 20000 k Mtr) as (train & g1 & -> & S1).
  unfold mbind at 1, Cell_bind at 1, bind_name at 1.
  cbn [names random files refused s3 requests output].
  unfold mbind at 1, Cell_bind at 1, read at 1. cbn [names]. look. rewrite Hva.
  unfold mbind at 1, Cell_bind at 1.
  match goal with |- context [call_dp_transform (PList va) 100 20000 ?k1] =>
    destruct (call_dp_transform_ok va 100 20000 k1 Mva)
      as (validation & g2 & -> & S2) end.
  unfold mbind at 1, Cell_bind at 1, bind_name at 1.
  cbn [names random files refused s3 requests output].
  unfold mbind at 1, Cell_bind at 1, read at 1. cbn [names]. look. rewrite Hte.
  unfold mbind at 1, Cell_bind at 1.
  match goal with |- context [call_dp_transform (PList te) 10 20000 ?k1] =>
    destruct (call_dp_transform_ok te 10 20000 k1 Mte)
      as (test & g3 & -> & S3) end.
  unfold bind_name. cbn [names random files refused s3 requests output].
  exists train, validation, test, g3.
  split; [done|]. split; [by apply S1|]. split; [by apply S2|]. by apply S3.
Qed.

(** X18.  The split cell binds [train], [validation] and [test] to
    subsamples of the three processed lists: records of the list, none more
    often than there, each within 20000 characters, and as many as the
    count (1000, 100, 10) and the filter allow.  It writes no file, sends
    no request and prints nothing. *)
Theorem cell_split_subsamples tr va te k :
  names k !! "datapoints_train" = Some (PList tr) →
  names k !! "datapoints_valid" = Some (PList va) →
  names k !! "datapoints_test" = Some (PList te) →
  Forall measurable tr → Forall measurable va → Forall measurable te →
  let k' := (cell_split k).2 in
  ∃ train validation test,
    (cell_split k).1 = Ok ()
    ∧ names k' !! "train" = Some (PList train)
    ∧ names k' !! "validation" = Some (PList validation)
    ∧ names k' !! "test" = Some (PList test)
    ∧ subsample tr 1000 20000 train
    ∧ subsample va 100 20000 validation
    ∧ subsample te 10 20000 test
    ∧ files k' = files k ∧ requests k' = requests k ∧ output k' = output k.
Proof.
  intros Htr Hva Hte Mtr Mva Mte k'. subst k'.
  destruct (cell_split_run tr va te k Htr Hva Hte Mtr Mva Mte)
    as (train & validation & test & g & -> & S1 & S2 & S3).
  exists train, validation, test. cbn [fst snd names files requests output].
  split; [done|]. split; [by look|]. split; [by look|]. split; [by look|]. done.
Qed.

(** A processing cell leaves the kernel ready for the next one. *)
Lemma cell_datapoints_step split target dataset rows pairs k :
  texts_bound k →
  names k !! "dataset" = Some dataset →
  getitem_key dataset split = Ok (PList rows) →
  target ∉ ["dp"; "temp_dict"; "system_string"; "instruction"; "dataset"] →
  Forall2 row_texts rows pairs →
  ∃ k', cell_datapoints split target k = (Ok (), k')
        ∧ names k' !! target = Some (PList (built <$> pairs))
        ∧ texts_bound k'
        ∧ names k' !! "dataset" = Some dataset
        ∧ same_except ["dp"; "temp_dict"; target] k k'.
Proof.
  intros Hb Hd Hrows Hfresh Hf.
  destruct (cell_datapoints_run split target dataset rows (built <$> pairs) k)
    as (k1 & Hrun & Ht & Hs); [done.. | by apply temp_dict_rows |].
  exists k1. split; [done|]. split; [done|].
  split; [eapply texts_bound_same; [|exact Hs|exact Hb]; names_in|].
  split; [|done]. destruct Hs as (_&_&_&_&_&_&Hn). rewrite Hn; [done|]. names_in.
Qed.

(** X19.  From the dataset to the subsamples: when every row of the three
    splits has a dialogue and a summary that are strings, the three
    processing cells followed by the split cell end normally, and [train],
    [validation] and [test] are subsamples (as above) of the records built
    from the rows of their split. *)
Theorem prepare_subsamples dataset rows_tr rows_va rows_te
    pairs_tr pairs_va pairs_te k :
  texts_bound k →
  names k !! "dataset" = Some dataset →
  getitem_key dataset "train" = Ok (PList rows_tr) →
  getitem_key dataset "validation" = Ok (PList rows_va) →
  getitem_key dataset "test" = Ok (PList rows_te) →
  Forall2 row_texts rows_tr pairs_tr →
  Forall2 row_texts rows_va pairs_va →
  Forall2 row_texts rows_te pairs_te →
  let k' := (prepare k).2 in
  ∃ train validation test,
    (prepare k).1 = Ok ()
    ∧ names k' !! "train" = Some (PList train)
    ∧ names k' !! "validation" = Some (PList validation)
    ∧ names k' !! "test" = Some (PList test)
    ∧ subsample (built <$> pairs_tr) 1000 20000 train
    ∧ subsample (built <$> pairs_va) 100 20000 validation
    ∧ subsample (built <$> pairs_te) 10 20000 test.
Proof.
  intros Hb Hd Htr Hva Hte Ftr Fva Fte k'. subst k'.
  destruct (cell_datapoints_step "train" "datapoints_train" dataset rows_tr
              pairs_tr k) as (k1 & R1 & T1 & B1 & D1 & S1); [done..|names_in|done|].
  destruct (cell_datapoints_step "validation" "datapoints_valid" dataset rows_va
              pairs_va k1) as (k2 & R2 & T2 & B2 & D2 & S2); [done..|names_in|done|].
  destruct (cell_datapoints_step "test" "datapoints_test" dataset rows_te
              pairs_te k2) as (k3 & R3 & T3 & B3 & D3 & S3); [done..|names_in|done|].
  assert (names k3 !! "datapoints_train" = Some (PList (built <$> pairs_tr))) as N1.
  { destruct S2 as (_&_&_&_&_&_&H2). destruct S3 as (_&_&_&_&_&_&H3).
    rewrite H3, H2; [done|names_in..]. }
  assert (names k3 !! "datapoints_valid" = Some (PList (built <$> pairs_va))) as N2.
  { destruct S3 as (_&_&_&_&_&_&H3). rewrite H3; [done|names_in]. }
  destruct (cell_split_run (built <$> pairs_tr) (built <$> pairs_va)
              (built <$> pairs_te) k3 N1 N2 T3
              (built_measurable _) (built_measurable _) (built_measurable _))
    as (train & validation & test & g & Hrun & ? & ? & ?).
  exists train, validation, test.
  assert (prepare k = cell_split k3) as ->.
  { unfold prepare, cell_train, cell_valid, cell_test, mbind, Cell_bind.
    by rewrite R1, R2, R3. }
  rewrite Hrun. cbn [fst snd names].
  split; [done|]. split; [by look|]. split; [by look|]. split; [by look|]. done.
Qed.

Lemma jsonl_cons text texts : jsonl (text :: texts) = (text +:+ nl) +:+ jsonl texts.
Proof.
  unfold jsonl. cbn [fmap list_fmap]. 
  change (list_fmap _ _ ?f texts) with (f <$> texts).
  destruct texts as [|t ts]; [by rewrite append_nil_r|done].
Qed.

Lemma writer_write_run path line text content k :
  json_encode line = Some text →
  files k !! path = Some content →
  writer_write path line k
  = (Ok (), Kernel (names k) (random k)
                   (<[path := (content +:+ text) +:+ nl]> (files k))
                   (refused k) (s3 k) (requests k) (output k)).
Proof.
  intros Hl Hc. unfold writer_write, write. run_cell. rewrite Hl.
  cbn [of_option]. look. rewrite Hc. cbn [default].
  by rewrite insert_insert_eq.
Qed.

(** The writing loop appends one line for each object. *)
Lemma write_lines path lines texts content k :
  mapM json_encode lines = Some texts →
  files k !! path = Some content →
  for_rows (writer_write path) lines k
  = (Ok (), Kernel (names k) (random k)
                   (<[path := content +:+ jsonl texts]> (files k))
                   (refused k) (s3 k) (requests k) (output k)).
Proof.
  intros Hm%mapM_Some. revert content k.
  induction Hm as [|line text lines texts Hl _ IH]; intros content k Hc.
  { cbn [for_rows]. unfold mret, Cell_ret. rewrite append_nil_r.
    rewrite insert_id by done. by destruct k. }
  cbn [for_rows]. unfold mbind at 1, Cell_bind.
  rewrite (writer_write_run path line text content) by done.
  rewrite IH with (content := (content +:+ text) +:+ nl)
    by (cbn [files]; by look).
  cbn [names random files refused s3 requests output].
  rewrite insert_insert_eq. by rewrite jsonl_cons, !append_assoc.
Qed.

Lemma show_text text k :
  show [PStr text] k
  = (Ok (), Kernel (names k) (random k) (files k) (refused k) (s3 k)
                   (requests k) (output k +:+ text +:+ nl)).
Proof. reflexivity. Qed.

Lemma jsonl_converter_run dataset lines texts path k :
  refused k path = None →
  py_iter dataset = Ok lines →
  mapM json_encode lines = Some texts →
  jsonl_converter dataset path k
  = (Ok (), Kernel (names k) (random k) (<[path := jsonl texts]> (files k))
                   (refused k) (s3 k) (requests k)
                   (output k +:+ path +:+ nl)).
Proof.
  intros Hr Hi Hm. unfold jsonl_converter. unfold mbind at 1, Cell_bind at 1.
  rewrite show_text. unfold open_w. run_cell. rewrite Hr, Hi.
  rewrite (write_lines path lines texts "") by (done || by cbn [files]; look).
  cbn [names random files refused s3 requests output].
  by rewrite insert_insert_eq.
Qed.

Lemma jsonl_line_breaks lines texts :
  mapM json_encode lines = Some texts →
  line_breaks (jsonl texts) = length lines.
Proof.
  intros Hm%mapM_Some.
  induction Hm as [|line text lines texts Hl _ IH]; [done|].
  rewrite jsonl_cons, !line_breaks_app, IH.
  rewrite (json_encode_no_break line text Hl). done.
Qed.

(** X20.  [jsonl_converter] on objects that have a JSON text: it prints
    the file name, and the file then holds the texts of the objects in
    order, each followed by a line break, and so exactly one line for each
    object, whatever the file held before.  Other files, the names and the
    requests are as before. *)
Theorem jsonl_converter_writes dataset lines texts path k :
  refused k path = None →
  py_iter dataset = Ok lines →
  mapM json_encode lines = Some texts →
  let k' := (jsonl_converter dataset path k).2 in
  (jsonl_converter dataset path k).1 = Ok ()
  ∧ files k' !! path = Some (jsonl texts)
  ∧ line_breaks (jsonl texts) = length lines
  ∧ (∀ other, other ≠ path → files k' !! other = files k !! other)
  ∧ output k' = output k +:+ path +:+ nl
  ∧ names k' = names k ∧ requests k' = requests k.
Proof.
  intros Hr Hi Hm k'. subst k'.
  rewrite (jsonl_converter_run dataset lines texts path k) by done.
  cbn [fst snd names files requests output].
  split; [done|]. split; [by look|]. split; [by apply jsonl_line_breaks|].
  split; [|done]. intros other Ho. by look.
Qed.

(** X21.  When the file cannot be opened for writing, [jsonl_converter]
    raises that error with the file name already printed; no file is
    created or changed. *)
Theorem jsonl_converter_refused dataset path e k :
  refused k path = Some e →
  let k' := (jsonl_converter dataset path k).2 in
  (jsonl_converter dataset path k).1 = Raise e
  ∧ files k' = files k
  ∧ output k' = output k +:+ path +:+ nl.
Proof.
  intros Hr k'. subst k'.
  assert (jsonl_converter dataset path k
          = (Raise e, Kernel (names k) (random k) (files k) (refused k) (s3 k)
                             (requests k) (output k +:+ path +:+ nl))) as ->.
  { unfold jsonl_converter. unfold mbind at 1, Cell_bind at 1.
    rewrite show_text. unfold open_w. run_cell. by rewrite Hr. }
  done.
Qed.

Lemma fstring_run parts texts k :
  mapM (fpart_text k) parts = Some texts →
  fstring parts k = (Ok (String.concat "" texts), k).
Proof.
  intros Hm%mapM_Some.
  assert (∀ ts, String.concat "" ts = foldr String.append "" ts) as Hcat.
  { induction ts as [|t [|t' ts] IH];
      [done | cbn [String.concat foldr]; by rewrite append_nil_r |].
    change (String.concat "" (t :: t' :: ts))
      with (t +:+ "" +:+ String.concat "" (t' :: ts)). by rewrite IH. }
  rewrite Hcat.
  induction Hm as [|part text parts texts Hp _ IH]; [done|].
  destruct part as [lit|x]; cbn [fstring fpart_text foldr] in *.
  - simplify_eq. unfold mbind, Cell_bind. by rewrite IH.
  - destruct (names k !! x) as [v|] eqn:Hx; [|done]. cbn in Hp.
    unfold mbind, Cell_bind, read, pure. rewrite Hx, Hp. cbn [of_option].
    by rewrite IH.
Qed.

Lemma path_run k dir x n :
  names k !! "abs_path" = Some (PStr dir) →
  names k !! x = Some (PStr n) →
  fstring [Var "abs_path"; Lit "/"; Var x] k = (Ok (dir +:+ "/" +:+ n), k).
Proof.
  intros Hd Hx. rewrite (fstring_run _ [dir; "/"; n]); [done|].
  cbn [mapM fpart_text]. by rewrite Hd, Hx.
Qed.

Lemma key_run k prefix x n :
  names k !! x = Some (PStr n) →
  fstring [Lit prefix; Var x] k = (Ok (prefix +:+ n), k).
Proof.
  intros Hx. rewrite (fstring_run _ [prefix; n]); [done|].
  cbn [mapM fpart_text]. by rewrite Hx.
Qed.

Lemma uri_run k bucket middle x n :
  names k !! "bucket_name" = Some (PStr bucket) →
  names k !! x = Some (PStr n) →
  fstring [Lit "s3://"; Var "bucket_name"; Lit middle; Var x] k
  = (Ok ("s3://" +:+ bucket +:+ middle +:+ n), k).
Proof.
  intros Hb Hx. rewrite (fstring_run _ ["s3://"; bucket; middle; n]); [done|].
  cbn [mapM fpart_text]. by rewrite Hb, Hx.
Qed.

Lemma cell_write_run k dir bucket n1 n2 n3 v1 v2 v3 l1 l2 l3 t1 t2 t3 :
  file_names k dir bucket n1 n2 n3 →
  (∀ path, refused k path = None) →
  names k !! "train" = Some v1 → py_iter v1 = Ok l1 →
  names k !! "validation" = Some v2 → py_iter v2 = Ok l2 →
  names k !! "test" = Some v3 → py_iter v3 = Ok l3 →
  mapM json_encode l1 = Some t1 → mapM json_encode l2 = Some t2 →
  mapM json_encode l3 = Some t3 →
  cell_write k
  = (Ok (),
     Kernel (names k) (random k)
       (<[dir +:+ "/" +:+ n3 := jsonl t3]>
          (<[dir +:+ "/" +:+ n2 := jsonl t2]>
             (<[dir +:+ "/" +:+ n1 := jsonl t1]> (files k))))
       (refused k) (s3 k) (requests k)
       (((output k +:+ (dir +:+ "/" +:+ n1) +:+ nl)
           +:+ (dir +:+ "/" +:+ n2) +:+ nl)
          +:+ (dir +:+ "/" +:+ n3) +:+ nl)).
Proof.
  intros (Hd & Hb & H1 & H2 & H3) Hr N1 I1 N2 I2 N3 I3 M1 M2 M3.
  unfold cell_write. unfold mbind at 1, Cell_bind at 1, read at 1. rewrite N1.
  unfold mbind at 1, Cell_bind at 1. rewrite (path_run k dir _ n1) by done.
  unfold mbind at 1, Cell_bind at 1.
  rewrite (jsonl_converter_run v1 l1 t1) by done.
  unfold mbind at 1, Cell_bind at 1, read at 1. cbn [names]. rewrite N2.
  unfold mbind at 1, Cell_bind at 1. rewrite (path_run _ dir _ n2) by done.
  unfold mbind at 1, Cell_bind at 1.
  rewrite (jsonl_converter_run v2 l2 t2) by (done || apply Hr).
  cbn [names random files refused s3 requests output].
  unfold mbind at 1, Cell_bind at 1, read at 1. cbn [names]. rewrite N3.
  unfold mbind at 1, Cell_bind at 1. rewrite (path_run _ dir _ n3) by done.
  rewrite (jsonl_converter_run v3 l3 t3) by (done || apply Hr).
  done.
Qed.

Lemma upload_file_run k path bucket key r :
  s3 k (files k) (requests k) (upload_call path bucket key) = inr r →
  upload_file (PStr path) (PStr bucket) (PStr key) k
  = (Ok r, Kernel (names k) (random k) (files k) (refused k) (s3 k)
                  (requests k ++ [upload_call path bucket key]) (output k)).
Proof. intros Hs. unfold upload_file. fold (upload_call path bucket key). by rewrite Hs. Qed.

Lemma cell_upload_run k dir bucket n1 n2 n3 :
  file_names k dir bucket n1 n2 n3 →
  (∀ fs history c, ∃ r, s3 k fs history c = inr r) →
  cell_upload k
  = (Ok (),
     Kernel (names k) (random k) (files k) (refused k) (s3 k)
       (requests k ++
        [ upload_call (dir +:+ "/" +:+ n1) bucket
            ("haiku-fine-tuning-datasets/train/" +:+ n1);
          upload_call (dir +:+ "/" +:+ n2) bucket
            ("haiku-fine-tuning-datasets/validation/" +:+ n2);
          upload_call (dir +:+ "/" +:+ n3) bucket
            ("haiku-fine-tuning-datasets/test/" +:+ n3) ])
       (output k)).
Proof.
  intros (Hd & Hb & H1 & H2 & H3) Hs.
  unfold cell_upload.
  unfold mbind at 1, Cell_bind at 1. rewrite (path_run k dir _ n1) by done.
  unfold mbind at 1, Cell_bind at 1, read at 1. rewrite Hb.
  unfold mbind at 1, Cell_bind at 1. rewrite (key_run k _ _ n1) by done.
  unfold mbind at 1, Cell_bind at 1.
  destruct (Hs (files k) (requests k)
              (upload_call (dir +:+ "/" +:+ n1) bucket
                 ("haiku-fine-tuning-datasets/train/" +:+ n1))) as [r1 Hr1].
  rewrite (upload_file_run k _ _ _ r1 Hr1).
  unfold mbind at 1, Cell_bind at 1. rewrite (path_run _ dir _ n2) by done.
  unfold mbind at 1, Cell_bind at 1, read at 1. cbn [names]. rewrite Hb.
  unfold mbind at 1, Cell_bind at 1. rewrite (key_run _ _ _ n2) by done.
  unfold mbind at 1, Cell_bind at 1.
  match goal with |- context [upload_file ?a ?b ?c ?k1] =>
    destruct (Hs (files k1) (requests k1)
                (upload_call (dir +:+ "/" +:+ n2) bucket
                   ("haiku-fine-tuning-datasets/validation/" +:+ n2)))
      as [r2 Hr2];
    rewrite (upload_file_run k1 _ _ _ r2 Hr2) end.
  cbn [names random files refused s3 requests output].
  unfold mbind at 1, Cell_bind at 1. rewrite (path_run _ dir _ n3) by done.
  unfold mbind at 1, Cell_bind at 1, read at 1. cbn [names]. rewrite Hb.
  unfold mbind at 1, Cell_bind at 1. rewrite (key_run _ _ _ n3) by done.
  unfold mbind at 1, Cell_bind at 1.
  match goal with |- context [upload_file ?a ?b ?c ?k1] =>
    destruct (Hs (files k1) (requests k1)
                (upload_call (dir +:+ "/" +:+ n3) bucket
                   ("haiku-fine-tuning-datasets/test/" +:+ n3)))
      as [r3 Hr3];
    rewrite (upload_file_run k1 _ _ _ r3 Hr3) end.
  cbn [names random files refused s3 requests output].
  unfold mret, Cell_ret. by rewrite <- !app_assoc.
Qed.

Lemma cell_uris_run k dir bucket n1 n2 n3 :
  file_names k dir bucket n1 n2 n3 →
  cell_uris k
  = (Ok (),
     Kernel
       (<["s3_test_uri" :=
            PStr ("s3://" +:+ bucket +:+ "/haiku-fine-tuning-datasets/test/" +:+ n3)]>
          (<["s3_validation_uri" :=
               PStr ("s3://" +:+ bucket
                     +:+ "/haiku-fine-tuning-datasets/validation/" +:+ n2)]>
             (<["s3_train_uri" :=
                  PStr ("s3://" +:+ bucket
                        +:+ "/haiku-fine-tuning-datasets/train/" +:+ n1)]>
                (names k))))
       (random k) (files k) (refused k) (s3 k) (requests k) (output k)).
Proof.
  intros (Hd & Hb & H1 & H2 & H3). unfold cell_uris.
  unfold mbind at 1, Cell_bind at 1. rewrite (uri_run k bucket _ _ n1) by done.
  unfold mbind at 1, Cell_bind at 1, bind_name at 1.
  unfold mbind at 1, Cell_bind at 1.
  rewrite (uri_run _ bucket _ _ n2) by (cbn [names]; by look).
  unfold mbind at 1, Cell_bind at 1, bind_name at 1.
  unfold mbind at 1, Cell_bind at 1.
  rewrite (uri_run _ bucket _ _ n3) by (cbn [names]; by look).
  unfold bind_name. by cbn [names random files refused s3 requests output].
Qed.

(** X22.  The three cells that write, upload and name the files, on a
    disk and a service that accept everything: the three files hold the
    lines of [train], [validation] and [test]; three uploads are sent, in
    that order, each with the path just written as [Filename], the bucket
    and the key [haiku-fine-tuning-datasets/<part>/<file name>]; and each
    URI that is stored is [s3://<Bucket>/<Key>] of its upload. *)
Theorem publish_run k dir bucket n1 n2 n3 l1 l2 l3 t1 t2 t3 :
  file_names k dir bucket n1 n2 n3 →
  names k !! "train" = Some (PList l1) →
  names k !! "validation" = Some (PList l2) →
  names k !! "test" = Some (PList l3) →
  mapM json_encode l1 = Some t1 →
  mapM json_encode l2 = Some t2 →
  mapM json_encode l3 = Some t3 →
  (∀ path, refused k path = None) →
  (∀ fs history c, ∃ r, s3 k fs history c = inr r) →
  let k' := (publish k).2 in
  let path n := dir +:+ "/" +:+ n in
  let key part n := "haiku-fine-tuning-datasets/" +:+ part +:+ "/" +:+ n in
  let uri part n := PStr ("s3://" +:+ bucket +:+ "/" +:+ key part n) in
  (publish k).1 = Ok ()
  ∧ files k' = <[path n3 := jsonl t3]>
                 (<[path n2 := jsonl t2]> (<[path n1 := jsonl t1]> (files k)))
  ∧ requests k' = requests k ++
                  [ upload_call (path n1) bucket (key "train" n1);
                    upload_call (path n2) bucket (key "validation" n2);
                    upload_call (path n3) bucket (key "test" n3) ]
  ∧ names k' !! "s3_train_uri" = Some (uri "train" n1)
  ∧ names k' !! "s3_validation_uri" = Some (uri "validation" n2)
  ∧ names k' !! "s3_test_uri" = Some (uri "test" n3)
  ∧ output k' = (((output k +:+ path n1 +:+ nl) +:+ path n2 +:+ nl)
                   +:+ path n3 +:+ nl).
Proof.
  intros Hn N1 N2 N3 M1 M2 M3 Hr Hs k' path key uri. subst k'.
  pose proof (cell_write_run k dir bucket n1 n2 n3 _ _ _ l1 l2 l3 t1 t2 t3
                Hn Hr N1 eq_refl N2 eq_refl N3 eq_refl M1 M2 M3) as Hw.
  assert (∃ k', publish k = (Ok (), k')
    ∧ k' = Kernel
       (<["s3_test_uri" := uri "test" n3]>
          (<["s3_validation_uri" := uri "validation" n2]>
             (<["s3_train_uri" := uri "train" n1]> (names k))))
       (random k)
       (<[path n3 := jsonl t3]>
          (<[path n2 := jsonl t2]> (<[path n1 := jsonl t1]> (files k))))
       (refused k) (s3 k)
       (requests k ++
        [ upload_call (path n1) bucket (key "train" n1);
          upload_call (path n2) bucket (key "validation" n2);
          upload_call (path n3) bucket (key "test" n3) ])
       (((output k +:+ path n1 +:+ nl) +:+ path n2 +:+ nl) +:+ path n3 +:+ nl))
    as (k' & -> & ->).
  { eexists. split; [|reflexivity].
    unfold publish. unfold mbind at 1, Cell_bind at 1. rewrite Hw.
    unfold mbind at 1, Cell_bind at 1.
    rewrite (cell_upload_run _ dir bucket n1 n2 n3) by done.
    by rewrite (cell_uris_run _ dir bucket n1 n2 n3) by done. }
  cbn [fst snd names random files refused s3 requests output].
  split; [done|]. split; [done|]. split; [done|].
  split; [by look|]. split; [by look|]. split; [by look|]. done.
Qed.

(** X23.  When the first upload fails with an error that [upload_file]
    passes on as it is (a connection error, say; not a [ClientError] of
    the service, which boto3 replaces by its own exception), the upload
    cell raises that error after that one call: the other two uploads are
    not made, and the cell binds no name, writes no file and prints
    nothing.  The URI cell does not look at the uploads: when it is run in
    the state left behind it ends normally and binds the URI of an object
    that was never uploaded. *)
Theorem cell_upload_first_failure k dir bucket n1 n2 n3 e :
  file_names k dir bucket n1 n2 n3 →
  let first := upload_call (dir +:+ "/" +:+ n1) bucket
                 ("haiku-fine-tuning-datasets/train/" +:+ n1) in
  s3 k (files k) (requests k) first = inl e →
  passed_on e = true →
  let k' := (cell_upload k).2 in
  (cell_upload k).1 = Raise e
  ∧ requests k' = requests k ++ [first]
  ∧ names k' = names k
  ∧ files k' = files k
  ∧ output k' = output k
  ∧ (cell_uris k').1 = Ok ()
  ∧ names (cell_uris k').2 !! "s3_train_uri"
    = Some (PStr ("s3://" +:+ bucket
                  +:+ "/haiku-fine-tuning-datasets/train/" +:+ n1)).
Proof.
  intros Hn first Hs Hp k'. subst k'.
  assert (cell_upload k
    = (Raise e,
       Kernel (names k) (random k) (files k) (refused k) (s3 k)
              (requests k ++ [first]) (output k))) as ->.
  { destruct Hn as (Hd & Hb & H1 & H2 & H3). unfold cell_upload.
    unfold mbind at 1, Cell_bind at 1. rewrite (path_run k dir _ n1) by done.
    unfold mbind at 1, Cell_bind at 1, read at 1. rewrite Hb.
    unfold mbind at 1, Cell_bind at 1. rewrite (key_run k _ _ n1) by done.
    unfold mbind at 1, Cell_bind at 1. unfold upload_file.
    cbn [names random files refused s3 requests output].
    subst first. unfold upload_call in *. by rewrite Hs, Hp. }
  cbn [fst snd names files requests output].
  split; [done|]. split; [done|]. split; [done|]. split; [done|].
  split; [done|].
  rewrite (cell_uris_run _ dir bucket n1 n2 n3) by done.
  cbn [fst snd names]. split; [done|]. by look.
Qed.

End Facts.

(** ** The theorems at the sample data *)

Lemma cell_datapoints_builds_witness :
  (cell_train sample_kernel).1 = Ok ()
  ∧ names (cell_train sample_kernel).2 !! "datapoints_train"
    = Some (PList (built <$> sample_pairs)).
Proof.
  edestruct (cell_datapoints_builds (G:=N) "train" "datapoints_train"
               sample_dataset sample_rows (built <$> sample_pairs)
               sample_kernel) as (Hok & Ht & _);
    [split; reflexivity | reflexivity | reflexivity | names_in
    | repeat constructor |].
  exact (conj Hok Ht).
Defined.

Lemma cell_datapoints_stops_witness :
  (cell_train broken_kernel).1 = Raise (KeyError (PStr "summary"))
  ∧ names (cell_train broken_kernel).2 !! "datapoints_train"
    = Some (PList [built ("A: hi", "A greets")])
  ∧ names (cell_train broken_kernel).2 !! "dp"
    = Some (PDict [("id", PStr "2"); ("dialogue", PStr "C: late?")]).
Proof.
  apply (cell_datapoints_stops (G:=N) "train" "datapoints_train" broken_dataset
           [sample_row "1" "A: hi" "A greets"]
           (PDict [("id", PStr "2"); ("dialogue", PStr "C: late?")])
           [sample_row "3" "D: ok" "D agrees"]
           [built ("A: hi", "A greets")] (KeyError (PStr "summary"))
           broken_kernel);
    [split; reflexivity | reflexivity | reflexivity | names_in
    | repeat constructor | reflexivity].
Defined.

Lemma cell_datapoints_again_witness :
  names ((cell_train;; cell_train) sample_kernel).2 !! "datapoints_train"
  = Some (PList (built <$> sample_pairs)).
Proof.
  edestruct (cell_datapoints_again (G:=N) "train" "datapoints_train"
               sample_dataset sample_rows (built <$> sample_pairs)
               sample_kernel) as (_ & Ht & _);
    [split; reflexivity | reflexivity | reflexivity | names_in
    | repeat constructor |].
  exact Ht.
Defined.

Lemma cell_split_subsamples_witness :
  let k := ((cell_train;; cell_valid;; cell_test) sample_kernel).2 in
  ∃ train validation,
    names (cell_split k).2 !! "train" = Some (PList train)
    ∧ names (cell_split k).2 !! "validation" = Some (PList validation)
    ∧ names (cell_split k).2 !! "test" = Some (PList [])
    ∧ train ≡ₚ built <$> sample_pairs
    ∧ validation = [built ("E: bye", "E leaves")].
Proof.
  intros k.
  destruct (cell_split_subsamples (G:=N) (built <$> sample_pairs)
              [built ("E: bye", "E leaves")] [] k)
    as (train & validation & test & _ & Htr & Hva & Hte & S1 & S2 & S3 & _);
    [vm_compute; reflexivity.. | sample_measurable | sample_measurable
    | constructor |].
  exists train, validation.
  destruct S1 as (Hsub1 & _ & Hlen1). destruct S2 as (Hsub2 & _ & Hlen2).
  destruct S3 as (_ & _ & Hlen3).
  destruct test; [|discriminate Hlen3].
  split; [exact Htr|]. split; [exact Hva|]. split; [exact Hte|]. split.
  - apply submseteq_length_Permutation; [exact Hsub1|].
    apply Nat2Z.inj_le. rewrite Hlen1. vm_compute. discriminate.
  - apply submseteq_length_Permutation in Hsub2.
    + by apply Permutation_singleton_r in Hsub2.
    + apply Nat2Z.inj_le. rewrite Hlen2. vm_compute. discriminate.
Defined.

Lemma prepare_subsamples_witness :
  ∃ train validation test,
    (prepare sample_kernel).1 = Ok ()
    ∧ names (prepare sample_kernel).2 !! "train" = Some (PList train)
    ∧ names (prepare sample_kernel).2 !! "validation" = Some (PList validation)
    ∧ names (prepare sample_kernel).2 !! "test" = Some (PList test)
    ∧ train ⊆+ built <$> sample_pairs
    ∧ length validation = 1%nat
    ∧ length test = 0%nat.
Proof.
  destruct (prepare_subsamples (G:=N) sample_dataset sample_rows
              [sample_row "4" "E: bye" "E leaves"] []
              sample_pairs [("E: bye", "E leaves")] [] sample_kernel)
    as (train & validation & test & Hok & Htr & Hva & Hte & S1 & S2 & S3);
    [split; reflexivity | reflexivity.. | repeat constructor
    | repeat constructor | constructor |].
  exists train, validation, test.
  destruct S1 as (Hsub1 & _). destruct S2 as (_ & _ & Hlen2).
  destruct S3 as (_ & _ & Hlen3).
  split; [exact Hok|]. split; [exact Htr|]. split; [exact Hva|].
  split; [exact Hte|]. split; [exact Hsub1|].
  split; apply Nat2Z.inj; [rewrite Hlen2 | rewrite Hlen3]; vm_compute; reflexivity.
Defined.

Lemma jsonl_converter_writes_witness :
  let run := jsonl_converter (PList [PList [PInt 1; PInt 2]; PNone])
               "/home/user/x.jsonl" sample_kernel in
  files run.2 !! "/home/user/x.jsonl" = Some "[1, 2]
null
"
  ∧ output run.2 = "/home/user/x.jsonl
".
Proof.
  intros run.
  edestruct (jsonl_converter_writes (G:=N) (PList [PList [PInt 1; PInt 2]; PNone])
               [PList [PInt 1; PInt 2]; PNone] ["[1, 2]"; "null"]
               "/home/user/x.jsonl" sample_kernel)
    as (_ & Hf & _ & _ & Ho & _); [reflexivity..|].
  exact (conj Hf Ho).
Defined.

Lemma jsonl_converter_refused_witness :
  let path := String "000" "data/x.jsonl" in
  let run := jsonl_converter (PList [PNone]) path badpath_kernel in
  run.1 = Raise ValueError ∧ files run.2 = ∅ ∧ output run.2 = path +:+ nl.
Proof.
  intros path run.
  apply (jsonl_converter_refused (G:=N) (PList [PNone]) path ValueError
           badpath_kernel).
  reflexivity.
Defined.

Lemma publish_run_witness :
  let k := (prepare sample_kernel).2 in
  (publish k).1 = Ok ()
  ∧ requests (publish k).2
    = [ upload_call "/home/user/data/train-samsum-1K.jsonl"
          "bedrock-haiku-customization-x"
          "haiku-fine-tuning-datasets/train/train-samsum-1K.jsonl";
        upload_call "/home/user/data/validation-samsum-100.jsonl"
          "bedrock-haiku-customization-x"
          "haiku-fine-tuning-datasets/validation/validation-samsum-100.jsonl";
        upload_call "/home/user/data/test-samsum-10.jsonl"
          "bedrock-haiku-customization-x"
          "haiku-fine-tuning-datasets/test/test-samsum-10.jsonl" ]
  ∧ names (publish k).2 !! "s3_train_uri"
    = Some (PStr "s3://bedrock-haiku-customization-x/haiku-fine-tuning-datasets/train/train-samsum-1K.jsonl")
  ∧ files (publish k).2 !! "/home/user/data/test-samsum-10.jsonl" = Some "".
Proof.
  intros k.
  epose proof (publish_run (G:=N) k "/home/user/data"
                 "bedrock-haiku-customization-x" "train-samsum-1K.jsonl"
                 "validation-samsum-100.jsonl" "test-samsum-10.jsonl"
                 _ _ _ _ _ _) as H.
  destruct H as (Hok & Hf & Hr & Hu & _);
    [repeat split; vm_compute; reflexivity | vm_compute; reflexivity..
    | intros; vm_compute; reflexivity
    | intros; exists PNone; vm_compute; reflexivity |].
  split; [exact Hok|]. split; [exact Hr|]. split; [exact Hu|].
  rewrite Hf. apply lookup_insert_eq.
Defined.

Lemma cell_upload_first_failure_witness :
  let k := ((prepare;; cell_write) offline_kernel).2 in
  (cell_upload k).1 = Raise (BotoCoreError "EndpointConnectionError")
  ∧ requests (cell_upload k).2
    = [ upload_call "/home/user/data/train-samsum-1K.jsonl"
          "bedrock-haiku-customization-x"
          "haiku-fine-tuning-datasets/train/train-samsum-1K.jsonl" ]
  ∧ names (cell_upload k).2 !! "s3_train_uri" = None
  ∧ names (cell_uris (cell_upload k).2).2 !! "s3_train_uri"
    = Some (PStr "s3://bedrock-haiku-customization-x/haiku-fine-tuning-datasets/train/train-samsum-1K.jsonl").
Proof.
  intros k.
  destruct (cell_upload_first_failure (G:=N) k "/home/user/data"
              "bedrock-haiku-customization-x" "train-samsum-1K.jsonl"
              "validation-samsum-100.jsonl" "test-samsum-10.jsonl"
              (BotoCoreError "EndpointConnectionError"))
    as (He & Hr & Hn & _ & _ & _ & Hu);
    [repeat split; vm_compute; reflexivity | vm_compute; reflexivity
    | reflexivity |].
  split; [exact He|]. split; [rewrite Hr; vm_compute; reflexivity|].
  split; [rewrite Hn; vm_compute; reflexivity|]. exact Hu.
Defined.


End DataPrepFacts.
